(** * twitch_webhook: the webhook dispatcher, the signature verifier and the
      handler registry

    Shallow embedding of [src/src/webhook_handler.ts] and of the second
    copy of that file kept in [src/unnamed/part_000].  The two copies
    differ in two places only: [verifyMessage] (with or without the
    try/catch around [crypto.timingSafeEqual]) and the [switch] on the
    message type (with or without the ["revocation"] case).  What they share
    is embedded once; what differs is embedded twice, the second copy in
    [Module Part000]. *)

From Stdlib Require Import ZArith String Ascii List Bool Lia Floats Uint63.
From stdpp Require Import gmap strings list.

#[local] Set Warnings "-register-all".
Open Scope string_scope.

(** ** Strings and buffers

    A JavaScript string is embedded as the sequence of bytes of its UTF-8
    encoding, which is what [Buffer.from(s)] and [hmac.update(s)] read.
    Concatenation, emptiness and equality of well-formed strings agree with
    those of their encodings. *)

Definition Buffer_from (s : string) : list Z :=
  map (fun c => Z.of_N (N_of_ascii c)) (list_ascii_of_string s).

(** Values thrown by the runtime or by user callbacks, by kind. *)
Inductive error : Type :=
  | TypeError
  | RangeError
  | HandlerFailure.

(** Result of evaluating an expression that may throw. *)
Inductive completion (A : Type) : Type :=
  | Normal (a : A)
  | Throw (e : error).
Arguments Normal {A} a.
Arguments Throw {A} e.

(** [CRYPTO_memcmp]: the accumulating comparison behind
    [crypto.timingSafeEqual]; every byte pair is read, whatever the position
    of the first difference. *)
Fixpoint CRYPTO_memcmp (a b : list Z) (acc : Z) : Z :=
  match a, b with
  | x :: a', y :: b' => CRYPTO_memcmp a' b' (Z.lor acc (Z.lxor x y))
  | _, _ => acc
  end.

(** [crypto.timingSafeEqual(a, b)]: raises a [RangeError] when the byte
    lengths differ. *)
Definition timingSafeEqual (a b : list Z) : completion bool :=
  if Nat.eqb (length a) (length b)
  then Normal (Z.eqb (CRYPTO_memcmp a b 0) 0)
  else Throw RangeError.

(** ** JSON values *)

Inductive json : Type :=
  | JNull
  | JBool (b : bool)
  | JNum (x : float)
  | JStr (s : string)
  | JArr (items : list json)
  | JObj (props : list (string * json)).

(** A value read at run time: a JSON value or [undefined] ([None]). *)
Definition value : Type := option json.

Fixpoint assoc {A : Type} (k : string) (l : list (string * A)) : option A :=
  match l with
  | [] => None
  | (k', v) :: l' => if String.eqb k k' then Some v else assoc k l'
  end.

(** [v.name] for the names the dispatcher reads ([subscription], [type],
    [challenge]): none of them is inherited from a built-in prototype, so
    only an object parsed from JSON can carry one; reading a property of
    [null] or [undefined] raises a [TypeError]. *)
Definition getProp (v : value) (name : string) : completion value :=
  match v with
  | None | Some JNull => Throw TypeError
  | Some (JObj props) => Normal (assoc name props)
  | Some _ => Normal None
  end.

(** [!v] is [negb (truthy v)]. *)
Definition truthy (v : value) : bool :=
  match v with
  | None | Some JNull => false
  | Some (JBool b) => b
  | Some (JNum x) => negb (PrimFloat.eqb x 0%float || PrimFloat.is_nan x)
  | Some (JStr s) => negb (String.eqb s "")
  | Some (JArr _) | Some (JObj _) => true
  end.

(** [!h] for [h : string | null], the result of [headers.get]. *)
Definition missing (h : option string) : bool :=
  match h with
  | None => true
  | Some s => String.eqb s ""
  end.

Definition str (h : option string) : string :=
  match h with
  | Some s => s
  | None => ""
  end.

(** *** [JSON.stringify] of a string and of [{ error: msg }] *)

Definition dquote : string := String "034"%char EmptyString.
Definition backslash : string := String "092"%char EmptyString.

Definition hexDigit (n : N) : string :=
  match String.get (N.to_nat n) "0123456789abcdef" with
  | Some c => String c EmptyString
  | None => ""
  end.

Definition quoteChar (c : ascii) : string :=
  let n := N_of_ascii c in
  if N.eqb n 8 then backslash ++ "b"
  else if N.eqb n 9 then backslash ++ "t"
  else if N.eqb n 10 then backslash ++ "n"
  else if N.eqb n 12 then backslash ++ "f"
  else if N.eqb n 13 then backslash ++ "r"
  else if N.eqb n 34 then backslash ++ dquote
  else if N.eqb n 92 then backslash ++ backslash
  else if N.ltb n 32
       then backslash ++ "u00" ++ hexDigit (N.div n 16) ++ hexDigit (N.modulo n 16)
       else String c EmptyString.

Fixpoint quoteBody (s : string) : string :=
  match s with
  | EmptyString => ""
  | String c s' => quoteChar c ++ quoteBody s'
  end.

Definition QuoteJSONString (s : string) : string :=
  dquote ++ quoteBody s ++ dquote.

Definition JSON_stringify_error (msg : string) : string :=
  "{" ++ QuoteJSONString "error" ++ ":" ++ QuoteJSONString msg ++ "}".

(** ** The result of the dispatcher *)

Record TwitchWebhookResult : Type := {
  status : Z;
  headers : option (list (string * string));
  body : option json
}.

Definition errorResult (code : Z) (msg : string) : TwitchWebhookResult :=
  {| status := code;
     headers := None;
     body := Some (JStr (JSON_stringify_error msg)) |}.

Definition noContent : TwitchWebhookResult :=
  {| status := 204; headers := None; body := None |}.

(** ** The handler registry

    A handler is a function reference; the registry compares handlers by
    reference only. *)
Definition handler : Type := nat.

(** A JavaScript [Set] of handlers: insertion order, no duplicates. *)
Definition Set_add (h : handler) (s : list handler) : list handler :=
  if existsb (Nat.eqb h) s then s else s ++ [h].

Definition Set_delete (h : handler) (s : list handler) : list handler :=
  List.filter (fun h' => negb (Nat.eqb h h')) s.

(** [eventHandlers] is a [Map] from keys to [Set] objects.  The [Set]s are
    objects with an identity: the closure returned by [on] keeps the one it
    added to, whether or not the [Map] still holds it.  [sets] is the store
    of [Set] objects by address, [eventHandlers] maps a key to an address. *)
Record Registry : Type := {
  sets : gmap nat (list handler);
  eventHandlers : gmap string nat;
  next : nat
}.

Definition emptyRegistry : Registry :=
  {| sets := ∅; eventHandlers := ∅; next := 0 |}.

Definition setAt (st : Registry) (a : nat) : list handler :=
  match sets st !! a with
  | Some s => s
  | None => []
  end.

(** [eventHandlers.get(key)] followed by [Array.from]; [None] when the key
    is not in the map. *)
Definition eventHandlers_get (st : Registry) (key : string)
  : option (list handler) :=
  match eventHandlers st !! key with
  | Some a => Some (setAt st a)
  | None => None
  end.

(** The variables captured by the closure that [on] returns. *)
Record Unsubscribe : Type := {
  u_handlers : nat;
  u_handler : handler;
  u_eventType : string
}.

Definition on (eventType : string) (h : handler) (st : Registry)
  : Unsubscribe * Registry :=
  let st1 :=
    match eventHandlers st !! eventType with
    | Some _ => st
    | None =>
        {| sets := <[next st := []]> (sets st);
           eventHandlers := <[eventType := next st]> (eventHandlers st);
           next := S (next st) |}
    end in
  let handlers :=
    match eventHandlers st1 !! eventType with
    | Some a => a
    | None => next st1
    end in
  ({| u_handlers := handlers; u_handler := h; u_eventType := eventType |},
   {| sets := <[handlers := Set_add h (setAt st1 handlers)]> (sets st1);
      eventHandlers := eventHandlers st1;
      next := next st1 |}).

Definition subscribe := on.

(** Calling the closure: [handlers.delete(handler)], then
    [eventHandlers.delete(eventType)] when [handlers.size === 0]. *)
Definition unsubscribe (u : Unsubscribe) (st : Registry) : Registry :=
  let s := Set_delete (u_handler u) (setAt st (u_handlers u)) in
  let st1 :=
    {| sets := <[u_handlers u := s]> (sets st);
       eventHandlers := eventHandlers st;
       next := next st |} in
  if Nat.eqb (length s) 0
  then {| sets := sets st1;
          eventHandlers := delete (u_eventType u) (eventHandlers st1);
          next := next st1 |}
  else st1.

(** ** Asynchronous computations

    An [async] function is embedded by what it has done when control
    returns to the caller for good: the handler calls and console output it
    made, in order, and whether its promise fulfilled, rejected, or never
    settles. *)

Inductive phase : Type := Direct | UnknownEvent | Specific | Wildcard.

Inductive event : Type :=
  | Invoke (p : phase) (h : handler) (arg : json)
  | ConsoleError (v : json).

Inductive outcome (A : Type) : Type :=
  | Fulfilled (a : A)
  | Rejected (e : error)
  | Pending.
Arguments Fulfilled {A} a.
Arguments Rejected {A} e.
Arguments Pending {A}.

Record async (A : Type) : Type := Async {
  trace : list event;
  result : outcome A
}.
Arguments Async {A} trace result.
Arguments trace {A} a.
Arguments result {A} a.

#[global] Instance async_ret : MRet async :=
  fun A a => Async [] (Fulfilled a).

#[global] Instance async_bind : MBind async :=
  fun A B k m =>
    match result m with
    | Fulfilled a => Async (trace m ++ trace (k a)) (result (k a))
    | Rejected e => Async (trace m) (Rejected e)
    | Pending => Async (trace m) Pending
    end.

(** An expression that throws inside an [async] function rejects its
    promise. *)
Definition eval {A : Type} (c : completion A) : async A :=
  match c with
  | Normal a => Async [] (Fulfilled a)
  | Throw e => Async [] (Rejected e)
  end.

(** How a call of a user callback ends.  The callbacks are code outside the
    repository; they are taken by reference and by the way each call ends,
    and are assumed not to touch the registry while a request is handled. *)
Inductive behaviour : Type :=
  | Settles        (* returns a value, or a promise that fulfils *)
  | ThrowsSync     (* throws before returning *)
  | RejectsAsync   (* returns a promise that rejects *)
  | NeverSettles.  (* returns a promise that never settles *)

(** [options.handlers] as the dispatcher observes it: [key in handlers]
    (own or inherited property), and [handlers[key]] when that value is
    truthy, which is the value then called. *)
Record TwitchWebhookHandlers : Type := {
  hasProperty : string -> bool;
  getProperty : string -> option handler
}.

Record TwitchWebhookOptions : Type := {
  secret : string;
  handlers : option TwitchWebhookHandlers
}.

(** A [Request]: [request.headers.get] and the text [request.text()]
    resolves to. *)
Record Request : Type := {
  headers_get : string -> option string;
  text : string
}.

Definition isRejects (b : behaviour) : bool :=
  match b with RejectsAsync => true | _ => false end.

Definition isNever (b : behaviour) : bool :=
  match b with NeverSettles => true | _ => false end.

(** [await Promise.all(promises)]: rejects as soon as one promise rejects,
    fulfils when all have, and otherwise never settles. *)
Definition Promise_all (promises : list behaviour) : async unit :=
  Async [] (if existsb isRejects promises then Rejected HandlerFailure
            else if existsb isNever promises then Pending
            else Fulfilled tt).

(** [eventHandlers.get(eventType)] for a value read from the body: the keys
    are strings, and no other value is the same as a string. *)
Definition Map_get (st : Registry) (eventType : value)
  : option (list handler) :=
  match eventType with
  | Some (JStr s) => eventHandlers_get st s
  | _ => None
  end.

Section Dispatch.

(** The runtime's conversion of a value that is not a string to a
    property key. *)
Variable ToPropertyKey : value -> completion string.

(** The user callbacks. *)
Variable call : handler -> json -> behaviour.

Definition propertyKey (v : value) : completion string :=
  match v with
  | Some (JStr s) => Normal s
  | _ => ToPropertyKey v
  end.

(** [Array.from(set).map(handler => Promise.resolve(handler(n)))]: the
    handlers are called one after the other; a handler that throws ends
    the [map]. *)
Fixpoint array_map (p : phase) (hs : list handler) (n : json)
  : async (list behaviour) :=
  match hs with
  | [] => mret []
  | h :: hs' =>
      match call h n with
      | ThrowsSync => Async [Invoke p h n] (Rejected HandlerFailure)
      | b =>
          _ ← Async [Invoke p h n] (Fulfilled tt);
          promises ← array_map p hs' n;
          mret (b :: promises)
      end
  end.

Definition await_all (p : phase) (hs : list handler) (n : json)
  : async unit :=
  promises ← array_map p hs n;
  Promise_all promises.

(** [await Promise.resolve(handler(n))] and [await handler(n)]. *)
Definition await_call (p : phase) (h : handler) (n : json) : async unit :=
  await_all p [h] n.

(** The ["notification"] case of the [switch]. *)
Definition notification_case (handlers : TwitchWebhookHandlers)
    (bodyJson : json) (st : Registry) : async TwitchWebhookResult :=
  let notification := bodyJson in
  subscription ← eval (getProp (Some notification) "subscription");
  eventType ← eval (getProp subscription "type");
  key ← eval (propertyKey eventType);
  _ ← (if hasProperty handlers key
       then match getProperty handlers key with
            | Some handler => await_call Direct handler notification
            | None => mret tt
            end
       else mret tt);
  _ ← (if negb (hasProperty handlers key)
       then match getProperty handlers "onUnknownEvent" with
            | Some onUnknownEvent =>
                await_call UnknownEvent onUnknownEvent notification
            | None => mret tt
            end
       else mret tt);
  _ ← match Map_get st eventType with
      | Some specificHandlers =>
          await_all Specific specificHandlers notification
      | None => mret tt
      end;
  _ ← match eventHandlers_get st "*" with
      | Some allHandlers => await_all Wildcard allHandlers notification
      | None => mret tt
      end;
  mret {| status := 204; headers := None; body := None |}.

(** The ["webhook_callback_verification"] case of the [switch]. *)
Definition verification_case (bodyJson : json)
  : async TwitchWebhookResult :=
  challenge ← eval (getProp (Some bodyJson) "challenge");
  if negb (truthy challenge)
  then mret (errorResult 400 "Missing challenge in verification request")
  else mret {| status := 200;
               headers := Some [("content-type", "text/plain")];
               body := challenge |}.

End Dispatch.

(** The three messages about missing headers. *)
Definition msg_missing_id_timestamp : string :=
  "Missing required headers " ++ dquote ++ "twitch-eventsub-message-id"
  ++ dquote ++ " or " ++ dquote ++ "twitch-eventsub-message-timestamp"
  ++ dquote.

Definition msg_missing_signature : string :=
  "Missing required header " ++ dquote
  ++ "twitch-eventsub-message-signature" ++ dquote.

Definition msg_missing_type : string :=
  "Missing required header " ++ dquote ++ "twitch-eventsub-message-type"
  ++ dquote.

(** ** [src/src/webhook_handler.ts] *)

Section WebhookHandler.

(** [crypto.createHmac('sha256', secret).update(message).digest('hex')]. *)
Variable createHmac_sha256_hex : string -> string -> string.

(** [JSON.parse]; [None] when it throws. *)
Variable JSON_parse : string -> option json.

Variable ToPropertyKey : value -> completion string.
Variable call : handler -> json -> behaviour.

(** The object literal [{}], the default of [options.handlers]. *)
Variable emptyObject : TwitchWebhookHandlers.

Definition getHmac (secret message : string) : string :=
  createHmac_sha256_hex secret message.

Definition verifyMessage (hmac verifySignature : string) : bool :=
  match timingSafeEqual (Buffer_from hmac) (Buffer_from verifySignature) with
  | Normal b => b
  | Throw _ => false
  end.

Definition handleTwitchWebhook (request : Request)
    (options : TwitchWebhookOptions) (st : Registry)
  : async TwitchWebhookResult :=
  let secret := secret options in
  let handlers :=
    match handlers options with
    | Some handlers => handlers
    | None => emptyObject
    end in
  let messageId := headers_get request "twitch-eventsub-message-id" in
  let timestamp :=
    headers_get request "twitch-eventsub-message-timestamp" in
  let signature :=
    headers_get request "twitch-eventsub-message-signature" in
  let messageType := headers_get request "twitch-eventsub-message-type" in
  if missing messageId || missing timestamp
  then mret (errorResult 400 msg_missing_id_timestamp)
  else if missing signature
  then mret (errorResult 400 msg_missing_signature)
  else if missing messageType
  then mret (errorResult 400 msg_missing_type)
  else
    let body := text request in
    match JSON_parse body with
    | None => mret (errorResult 400 "Invalid JSON body")
    | Some bodyJson =>
        let message := str messageId ++ str timestamp ++ body in
        let hmac := "sha256=" ++ getHmac secret message in
        if negb (verifyMessage hmac (str signature))
        then mret (errorResult 401 "Invalid signature")
        else
          let messageType := str messageType in
          if String.eqb messageType "notification"
          then notification_case ToPropertyKey call handlers bodyJson st
          else if String.eqb messageType "webhook_callback_verification"
          then verification_case bodyJson
          else mret (errorResult 400
                       ("Invalid message type: " ++ messageType))
    end.

End WebhookHandler.

(** ** The copy in [src/unnamed/part_000] *)

Module Part000.
Section WebhookHandler.

Variable createHmac_sha256_hex : string -> string -> string.
Variable JSON_parse : string -> option json.
Variable ToPropertyKey : value -> completion string.
Variable call : handler -> json -> behaviour.
Variable emptyObject : TwitchWebhookHandlers.

Definition getHmac (secret message : string) : string :=
  createHmac_sha256_hex secret message.

(** No try/catch here: the [RangeError] of [timingSafeEqual] escapes. *)
Definition verifyMessage (hmac verifySignature : string)
  : completion bool :=
  timingSafeEqual (Buffer_from hmac) (Buffer_from verifySignature).

Definition handleTwitchWebhook (request : Request)
    (options : TwitchWebhookOptions) (st : Registry)
  : async TwitchWebhookResult :=
  let secret := secret options in
  let handlers :=
    match handlers options with
    | Some handlers => handlers
    | None => emptyObject
    end in
  let messageId := headers_get request "twitch-eventsub-message-id" in
  let timestamp :=
    headers_get request "twitch-eventsub-message-timestamp" in
  let signature :=
    headers_get request "twitch-eventsub-message-signature" in
  let messageType := headers_get request "twitch-eventsub-message-type" in
  if missing messageId || missing timestamp
  then mret (errorResult 400 msg_missing_id_timestamp)
  else if missing signature
  then mret (errorResult 400 msg_missing_signature)
  else if missing messageType
  then mret (errorResult 400 msg_missing_type)
  else
    let body := text request in
    match JSON_parse body with
    | None => mret (errorResult 400 "Invalid JSON body")
    | Some bodyJson =>
        let message := str messageId ++ str timestamp ++ body in
        let hmac := "sha256=" ++ getHmac secret message in
        verified ← eval (verifyMessage hmac (str signature));
        if negb verified
        then mret (errorResult 401 "Invalid signature")
        else
          let messageType := str messageType in
          if String.eqb messageType "notification"
          then notification_case ToPropertyKey call handlers bodyJson st
          else if String.eqb messageType "webhook_callback_verification"
          then verification_case bodyJson
          else if String.eqb messageType "revocation"
          then
            _ ← Async [ConsoleError bodyJson] (Fulfilled tt);
            mret {| status := 204; headers := None; body := None |}
          else mret (errorResult 400
                       ("Invalid message type: " ++ messageType))
    end.

End WebhookHandler.
End Part000.

(** ** The four header reads and the expected signature *)

Definition messageId_of (r : Request) : option string :=
  headers_get r "twitch-eventsub-message-id".
Definition timestamp_of (r : Request) : option string :=
  headers_get r "twitch-eventsub-message-timestamp".
Definition signature_of (r : Request) : option string :=
  headers_get r "twitch-eventsub-message-signature".
Definition messageType_of (r : Request) : option string :=
  headers_get r "twitch-eventsub-message-type".

(** The four required headers are present: none is [null] or empty, which
    is how the code tests them. *)
Definition headers_present (r : Request) : bool :=
  negb (missing (messageId_of r)) && negb (missing (timestamp_of r))
  && negb (missing (signature_of r)) && negb (missing (messageType_of r)).

(** ["sha256=" + hex HMAC(secret, messageId + timestamp + body)] for the
    request, given the HMAC function. *)
Definition expectedSignature (hmac : string -> string -> string)
    (secret : string) (r : Request) : string :=
  "sha256=" ++ hmac secret
    (str (messageId_of r) ++ str (timestamp_of r) ++ text r).

(** [b] is [a] with exactly one character replaced by another. *)
Fixpoint one_char_changed (a b : string) : bool :=
  match a, b with
  | String x a', String y b' =>
      if Ascii.eqb x y then one_char_changed a' b' else String.eqb a' b'
  | _, _ => false
  end.

(** [msg] mentions [name]. *)
Definition mentions (msg name : string) : bool :=
  match String.index 0 name msg with
  | Some _ => true
  | None => false
  end.

(** A handler is registered under [key] when it is in the [Set] that
    [eventHandlers.get(key)] returns. *)
Definition registered (st : Registry) (key : string) (h : handler) : Prop :=
  exists s, eventHandlers_get st key = Some s /\ In h s.

(** Every handler call made by [m] returns, or returns a promise that
    fulfils. *)
Definition calls_settle (call : handler -> json -> behaviour) {A : Type}
    (m : async A) : Prop :=
  forall p h n, In (Invoke p h n) (trace m) -> call h n = Settles.

(** [notification.subscription.type]. *)
Definition eventType_of (bodyJson : json) : completion value :=
  match getProp (Some bodyJson) "subscription" with
  | Normal subscription => getProp subscription "type"
  | Throw e => Throw e
  end.

(** ** A concrete runtime

    HMAC-SHA256 in full, and [JSON.parse] on the JSON texts without
    fractions, exponents, unicode escapes and integers from 2^53 on (texts
    with those are outside what [JSONText.parse] models). *)

Module SHA256.
#[local] Open Scope Z_scope.
#[local] Open Scope list_scope.

Definition w32 (x : Z) : Z := x mod 2 ^ 32.
Definition add32 (x y : Z) : Z := w32 (x + y).
Definition rotr (n x : Z) : Z :=
  Z.lor (Z.shiftr x n) (w32 (Z.shiftl x (32 - n))).
Definition not32 (x : Z) : Z := Z.lxor x (2 ^ 32 - 1).

Definition Ch (x y z : Z) : Z := Z.lxor (Z.land x y) (Z.land (not32 x) z).
Definition Maj (x y z : Z) : Z :=
  Z.lxor (Z.lxor (Z.land x y) (Z.land x z)) (Z.land y z).
Definition Sigma0 (x : Z) : Z :=
  Z.lxor (Z.lxor (rotr 2 x) (rotr 13 x)) (rotr 22 x).
Definition Sigma1 (x : Z) : Z :=
  Z.lxor (Z.lxor (rotr 6 x) (rotr 11 x)) (rotr 25 x).
Definition sigma0 (x : Z) : Z :=
  Z.lxor (Z.lxor (rotr 7 x) (rotr 18 x)) (Z.shiftr x 3).
Definition sigma1 (x : Z) : Z :=
  Z.lxor (Z.lxor (rotr 17 x) (rotr 19 x)) (Z.shiftr x 10).

(** The round constants are the first 32 bits of the fractional parts of
    the cube roots of the first 64 primes, the initial hash value those of
    the square roots of the first 8 primes. *)
Definition is_prime (n : Z) : bool :=
  forallb (fun d => negb (n mod d =? 0))
    (map Z.of_nat (seq 2 (Z.to_nat n - 2))).

Definition primes : list Z :=
  List.filter is_prime (map Z.of_nat (seq 2 310)).

(** The largest [r] below [2 ^ k] above the given [r] with [r ^ 3 <= n]. *)
Fixpoint cube_root (k : nat) (n r : Z) : Z :=
  match k with
  | O => r
  | S k' =>
      let c := r + 2 ^ Z.of_nat k' in
      if c * c * c <=? n then cube_root k' n c else cube_root k' n r
  end.

Definition K : list Z :=
  Eval vm_compute in map (fun p => w32 (cube_root 36 (p * 2 ^ 96) 0)) primes.

Definition H0 : list Z :=
  Eval vm_compute in map (fun p => w32 (Z.sqrt (p * 2 ^ 64))) (take 8 primes).

(** Big-endian bytes of [x], [n] of them. *)
Fixpoint be_bytes (n : nat) (x : Z) : list Z :=
  match n with
  | O => []
  | S n' => Z.land (Z.shiftr x (8 * Z.of_nat n')) 255 :: be_bytes n' x
  end.

Definition pad (msg : list Z) : list Z :=
  let len := Z.of_nat (length msg) in
  let zeros := Z.to_nat ((55 - len) mod 64) in
  msg ++ [128] ++ repeat 0 zeros ++ be_bytes 8 (8 * len).

Fixpoint words (fuel : nat) (bytes : list Z) : list Z :=
  match fuel, bytes with
  | S fuel', a :: b :: c :: d :: rest =>
      (((a * 256 + b) * 256 + c) * 256 + d) :: words fuel' rest
  | _, _ => []
  end.

(** The message schedule, most recent word first. *)
Fixpoint schedule (n : nat) (rev_w : list Z) : list Z :=
  match n with
  | O => rev_w
  | S n' =>
      let w := add32 (add32 (sigma1 (nth 1 rev_w 0)) (nth 6 rev_w 0))
                     (add32 (sigma0 (nth 14 rev_w 0)) (nth 15 rev_w 0)) in
      schedule n' (w :: rev_w)
  end.

Definition round (s : list Z) (kw : Z * Z) : list Z :=
  match s with
  | [a; b; c; d; e; f; g; h] =>
      let t1 := add32 (add32 (add32 h (Sigma1 e)) (add32 (Ch e f g) kw.1))
                      kw.2 in
      let t2 := add32 (Sigma0 a) (Maj a b c) in
      [add32 t1 t2; a; b; c; add32 d t1; e; f; g]
  | _ => s
  end.

Definition compress (h : list Z) (block : list Z) : list Z :=
  let w := rev (schedule 48 (rev block)) in
  let s := fold_left round (combine K w) h in
  map (fun p => add32 p.1 p.2) (combine h s).

Fixpoint blocks (fuel : nat) (ws : list Z) (h : list Z) : list Z :=
  match fuel, ws with
  | S fuel', _ :: _ => blocks fuel' (drop 16 ws) (compress h (take 16 ws))
  | _, _ => h
  end.

Definition digest (msg : list Z) : list Z :=
  let ws := words (length msg + 72) (pad msg) in
  flat_map (be_bytes 4) (blocks (length ws) ws H0).

Definition hmac (key msg : list Z) : list Z :=
  let key' := if Nat.ltb 64 (length key) then digest key else key in
  let key'' := key' ++ repeat 0 (64 - length key') in
  digest (map (Z.lxor 0x5c) key''
          ++ digest (map (Z.lxor 0x36) key'' ++ msg)).

Definition hex (bytes : list Z) : string :=
  fold_right
    (fun b s => hexDigit (Z.to_N (b / 16)) ++ hexDigit (Z.to_N (b mod 16))
                ++ s)%string
    "" bytes.
End SHA256.

Module JSONText.

Definition is_ws (c : ascii) : bool :=
  let n := N_of_ascii c in
  N.eqb n 32 || N.eqb n 9 || N.eqb n 10 || N.eqb n 13.

Fixpoint skip_ws (s : string) : string :=
  match s with
  | String c s' => if is_ws c then skip_ws s' else s
  | EmptyString => s
  end.

(** [expect lit s]: the rest of [s] after the prefix [lit]. *)
Fixpoint expect (lit s : string) : option string :=
  match lit, s with
  | EmptyString, _ => Some s
  | String a lit', String b s' =>
      if Ascii.eqb a b then expect lit' s' else None
  | _, EmptyString => None
  end.

Definition unescape (c : ascii) : option ascii :=
  let n := N_of_ascii c in
  if N.eqb n 34 || N.eqb n 92 || N.eqb n 47 then Some c
  else if N.eqb n 98 then Some (ascii_of_N 8)
  else if N.eqb n 102 then Some (ascii_of_N 12)
  else if N.eqb n 110 then Some (ascii_of_N 10)
  else if N.eqb n 114 then Some (ascii_of_N 13)
  else if N.eqb n 116 then Some (ascii_of_N 9)
  else None.

(** The characters of a string literal after its opening quote. *)
Fixpoint string_chars (s : string) : option (string * string) :=
  match s with
  | EmptyString => None
  | String c s' =>
      let n := N_of_ascii c in
      if N.eqb n 34 then Some ("", s')
      else if N.ltb n 32 then None
      else if N.eqb n 92 then
        match s' with
        | String e s'' =>
            match unescape e, string_chars s'' with
            | Some c', Some (r, rest) => Some (String c' r, rest)
            | _, _ => None
            end
        | EmptyString => None
        end
      else
        match string_chars s' with
        | Some (r, rest) => Some (String c r, rest)
        | None => None
        end
  end.

Definition digit (c : ascii) : option Z :=
  let n := N_of_ascii c in
  if N.leb 48 n && N.leb n 57 then Some (Z.of_N n - 48)%Z else None.

Fixpoint digits (s : string) (acc : Z) : Z * string :=
  match s with
  | String c s' =>
      match digit c with
      | Some d => digits s' (10 * acc + d)%Z
      | None => (acc, s)
      end
  | EmptyString => (acc, s)
  end.

(** An integer literal below 2^53, which a double holds exactly. *)
Definition integer (s : string) : option (float * string) :=
  let (neg, s1) :=
    match s with
    | String c s' => if N.eqb (N_of_ascii c) 45 then (true, s') else (false, s)
    | EmptyString => (false, s)
    end in
  match s1 with
  | String c s2 =>
      match digit c with
      | Some d =>
          let (z, rest) := if Z.eqb d 0 then (0%Z, s2) else digits s2 d in
          let ok :=
            match rest with
            | String c' _ =>
                let n := N_of_ascii c' in
                negb ((N.leb 48 n && N.leb n 57) || N.eqb n 46
                      || N.eqb n 101 || N.eqb n 69)
            | EmptyString => true
            end in
          if ok && Z.ltb z (2 ^ 53)
          then let x := PrimFloat.of_uint63 (Uint63.of_Z z) in
               Some (if neg then PrimFloat.opp x else x, rest)
          else None
      | None => None
      end
  | EmptyString => None
  end.

Fixpoint set_prop (k : string) (v : json) (props : list (string * json))
  : list (string * json) :=
  match props with
  | [] => [(k, v)]
  | (k', v') :: props' =>
      if String.eqb k k' then (k, v) :: props'
      else (k', v') :: set_prop k v props'
  end.

Section Composite.
Variable parse_value : string -> option (json * string).

(** After a first element: [, element]* followed by the closing bracket. *)
Fixpoint elements (n : nat) (s : string) (acc : list json)
  : option (list json * string) :=
  match n, skip_ws s with
  | S n', String c s' =>
      if N.eqb (N_of_ascii c) 93 then Some (acc, s')
      else if N.eqb (N_of_ascii c) 44 then
        match parse_value s' with
        | Some (v, rest) => elements n' rest (acc ++ [v])
        | None => None
        end
      else None
  | _, _ => None
  end.

Definition member (s : string) : option (string * json * string) :=
  match skip_ws s with
  | String c s' =>
      if N.eqb (N_of_ascii c) 34 then
        match string_chars s' with
        | Some (k, rest) =>
            match skip_ws rest with
            | String c' rest' =>
                if N.eqb (N_of_ascii c') 58 then
                  match parse_value rest' with
                  | Some (v, rest'') => Some (k, v, rest'')
                  | None => None
                  end
                else None
            | EmptyString => None
            end
        | None => None
        end
      else None
  | EmptyString => None
  end.

Fixpoint members (n : nat) (s : string) (acc : list (string * json))
  : option (list (string * json) * string) :=
  match n, skip_ws s with
  | S n', String c s' =>
      if N.eqb (N_of_ascii c) 125 then Some (acc, s')
      else if N.eqb (N_of_ascii c) 44 then
        match member s' with
        | Some (k, v, rest) => members n' rest (set_prop k v acc)
        | None => None
        end
      else None
  | _, _ => None
  end.
End Composite.

Fixpoint parse_value (fuel : nat) (s : string) : option (json * string) :=
  match fuel with
  | O => None
  | S fuel' =>
      match skip_ws s with
      | EmptyString => None
      | String c s' as s0 =>
          let n := N_of_ascii c in
          if N.eqb n 110 then
            match expect "null" s0 with Some r => Some (JNull, r) | None => None end
          else if N.eqb n 116 then
            match expect "true" s0 with Some r => Some (JBool true, r) | None => None end
          else if N.eqb n 102 then
            match expect "false" s0 with Some r => Some (JBool false, r) | None => None end
          else if N.eqb n 34 then
            match string_chars s' with
            | Some (r, rest) => Some (JStr r, rest)
            | None => None
            end
          else if N.eqb n 91 then
            match skip_ws s' with
            | String c' s'' =>
                if N.eqb (N_of_ascii c') 93 then Some (JArr [], s'')
                else
                  match parse_value fuel' s' with
                  | Some (v, rest) =>
                      match elements (parse_value fuel') (String.length rest) rest [v] with
                      | Some (vs, rest') => Some (JArr vs, rest')
                      | None => None
                      end
                  | None => None
                  end
            | EmptyString => None
            end
          else if N.eqb n 123 then
            match skip_ws s' with
            | String c' s'' =>
                if N.eqb (N_of_ascii c') 125 then Some (JObj [], s'')
                else
                  match member (parse_value fuel') s' with
                  | Some (k, v, rest) =>
                      match members (parse_value fuel') (String.length rest) rest [(k, v)] with
                      | Some (ps, rest') => Some (JObj ps, rest')
                      | None => None
                      end
                  | None => None
                  end
            | EmptyString => None
            end
          else
            match integer s0 with
            | Some (x, rest) => Some (JNum x, rest)
            | None => None
            end
      end
  end.

Definition parse (s : string) : option json :=
  match parse_value (S (String.length s)) s with
  | Some (v, rest) =>
      match skip_ws rest with
      | EmptyString => Some v
      | String _ _ => None
      end
  | None => None
  end.

End JSONText.

Module Runtime.

Definition hmac (secret message : string) : string :=
  SHA256.hex (SHA256.hmac (Buffer_from secret) (Buffer_from message)).

Definition parse : string -> option json := JSONText.parse.

(** Property keys of the values that are not strings, for [undefined],
    [null], the booleans and plain objects; numbers and arrays, whose
    keys need number printing, are not used by the examples. *)
Definition toPropertyKey (v : value) : completion string :=
  match v with
  | None => Normal "undefined"
  | Some JNull => Normal "null"
  | Some (JBool true) => Normal "true"
  | Some (JBool false) => Normal "false"
  | Some (JStr s) => Normal s
  | Some (JObj props) =>
      match assoc "toString" props with
      | Some _ => Throw TypeError
      | None => Normal "[object Object]"
      end
  | Some (JNum _) | Some (JArr _) => Throw TypeError
  end.

(** What [{}] inherits from [Object.prototype]. *)
Definition Object_prototype_names : list string :=
  ["constructor"; "toString"; "__defineGetter__"; "__defineSetter__";
   "hasOwnProperty"; "__lookupGetter__"; "__lookupSetter__";
   "isPrototypeOf"; "propertyIsEnumerable"; "valueOf"; "__proto__";
   "toLocaleString"].

Fixpoint position (k : string) (l : list string) (i : nat) : option nat :=
  match l with
  | [] => None
  | k' :: l' => if String.eqb k k' then Some i else position k l' (S i)
  end.

(** The object literal [{}]; its inherited values are the references
    1000, 1001, ... in the order of [Object_prototype_names]. *)
Definition emptyObject : TwitchWebhookHandlers :=
  {| hasProperty := fun k => existsb (String.eqb k) Object_prototype_names;
     getProperty := fun k => position k Object_prototype_names 1000 |}.

(** The callbacks of the examples: handler 2 returns a promise that
    rejects, handler 3 throws, handler 4 returns a promise that never
    settles, every other user handler returns.  Of the values inherited
    from [Object.prototype], [Object] (1000) and [toString] (1001) return
    when called with the notification and without a receiver; the others
    throw a [TypeError]. *)
Definition call (h : handler) (n : json) : behaviour :=
  match h with
  | 2 => RejectsAsync
  | 3 => ThrowsSync
  | 4 => NeverSettles
  | _ => if Nat.leb 1002 h then ThrowsSync else Settles
  end.

(** The two dispatchers on this runtime. *)
Abbreviation handleTwitchWebhook :=
  (handleTwitchWebhook hmac parse toPropertyKey call emptyObject).

Abbreviation handleTwitchWebhook_part000 :=
  (Part000.handleTwitchWebhook hmac parse toPropertyKey call emptyObject).

End Runtime.

(** ** Example requests *)

Definition mkRequest (messageId timestamp signature messageType : option string)
    (body : string) : Request :=
  {| headers_get := fun name =>
       if String.eqb name "twitch-eventsub-message-id" then messageId
       else if String.eqb name "twitch-eventsub-message-timestamp"
       then timestamp
       else if String.eqb name "twitch-eventsub-message-signature"
       then signature
       else if String.eqb name "twitch-eventsub-message-type"
       then messageType
       else None;
     text := body |}.

Definition quoted (s : string) : string := dquote ++ s ++ dquote.

Definition ex_secret : string := "s3cr3t".
Definition ex_id : string := "e76c6bd4-55c9-4987-8304-da1588d8988b".
Definition ex_timestamp : string := "2024-05-01T12:00:00Z".

Definition ex_options : TwitchWebhookOptions :=
  {| secret := ex_secret; handlers := None |}.

(** The empty object. *)
Definition body_empty_object : string := "{}".

(** An object whose challenge is the string abc123. *)
Definition body_challenge : string :=
  "{" ++ quoted "challenge" ++ ":" ++ quoted "abc123" ++ "}".

(** An object whose challenge is the empty string. *)
Definition body_empty_challenge : string :=
  "{" ++ quoted "challenge" ++ ":" ++ quoted "" ++ "}".

(** A notification envelope of type channel.follow with an empty event. *)
Definition body_follow : string :=
  "{" ++ quoted "subscription" ++ ":{" ++ quoted "type" ++ ":"
  ++ quoted "channel.follow" ++ "}," ++ quoted "event" ++ ":{}}".

Definition json_follow : json :=
  JObj [("subscription", JObj [("type", JStr "channel.follow")]);
        ("event", JObj [])].

(** ["sha256="] and the HMAC of id, timestamp and body under [ex_secret]. *)
Definition sign (body : string) : string :=
  "sha256=" ++ Runtime.hmac ex_secret (ex_id ++ ex_timestamp ++ body).

(** A request that carries [signature]. *)
Definition request (signature messageType body : string) : Request :=
  mkRequest (Some ex_id) (Some ex_timestamp) (Some signature)
    (Some messageType) body.

(** The signatures of the example bodies, computed once. *)
Definition signature_empty_object : string :=
  Eval vm_compute in sign body_empty_object.
Definition signature_challenge : string :=
  Eval vm_compute in sign body_challenge.
Definition signature_empty_challenge : string :=
  Eval vm_compute in sign body_empty_challenge.
Definition signature_follow : string :=
  Eval vm_compute in sign body_follow.
Definition signature_not_json : string :=
  Eval vm_compute in sign "not json".

(** A signed revocation whose body is the empty object. *)
Definition revocation_request : Request :=
  request signature_empty_object "revocation" body_empty_object.

(** Signed verification requests: with the challenge abc123, with the
    empty string as challenge, and without a challenge. *)
Definition challenge_request : Request :=
  request signature_challenge "webhook_callback_verification" body_challenge.
Definition empty_challenge_request : Request :=
  request signature_empty_challenge "webhook_callback_verification"
    body_empty_challenge.
Definition no_challenge_request : Request :=
  request signature_empty_object "webhook_callback_verification"
    body_empty_object.

(** The channel.follow envelope, signed, as a notification. *)
Definition follow_notification : Request :=
  request signature_follow "notification" body_follow.

(** A registry with handler 1 under "channel.follow" and handler 5 under
    "*"; both return. *)
Definition registry_settling : Registry :=
  (on "*" 5 (on "channel.follow" 1 emptyRegistry).2).2.

(** A registry with handler 2, whose promise rejects, under
    "channel.follow", and handler 1 under "*". *)
Definition registry_rejecting : Registry :=
  (on "*" 1 (on "channel.follow" 2 emptyRegistry).2).2.

(** [const off = on("channel.follow", h1); off();
     on("channel.follow", h2); off();] *)
Definition first_registration : Unsubscribe * Registry :=
  on "channel.follow" 1 emptyRegistry.
Definition after_first_call : Registry :=
  unsubscribe first_registration.1 first_registration.2.
Definition second_registration : Unsubscribe * Registry :=
  on "channel.follow" 2 after_first_call.
Definition after_second_call : Registry :=
  unsubscribe first_registration.1 second_registration.2.

(** A notification whose signature header is shorter than a signature. *)
Definition short_signature_request : Request :=
  request "sha256=00" "notification" body_follow.

(** The notification with the last character of its signature replaced. *)
Definition tampered_request : Request :=
  request
    "sha256=8c747ea508b7219619009bb771994619f10437b1d82e74a52cce188795376369"
    "notification" body_follow.

(** A signed request whose body is not JSON. *)
Definition not_json_request : Request :=
  request signature_not_json "notification" "not json".

(** A request without a signature header. *)
Definition unsigned_request : Request :=
  mkRequest (Some ex_id) (Some ex_timestamp) None (Some "notification")
    body_follow.

(** ** Histories of the registry

    The registries that calls of [on] and of the functions it returned
    produce from the empty one, together with the functions returned so
    far. *)
Inductive reachable : Registry -> list Unsubscribe -> Prop :=
  | reachable_empty : reachable emptyRegistry []
  | reachable_on (eventType : string) (h : handler) (st : Registry)
      (us : list Unsubscribe) :
      reachable st us ->
      reachable (on eventType h st).2 ((on eventType h st).1 :: us)
  | reachable_unsubscribe (u : Unsubscribe) (st : Registry)
      (us : list Unsubscribe) :
      reachable st us -> In u us -> reachable (unsubscribe u st) us.

(** What such a registry keeps: a key holds a [Set] that is stored, has a
    handler and no handler twice; stored [Set]s lie below [next]; two keys
    do not hold the same [Set]; the [Set] of a returned function is stored,
    and the only key that can hold it is the key of that function. *)
Record consistent (st : Registry) (us : list Unsubscribe) : Prop := {
  held_nonempty : forall k a,
    eventHandlers st !! k = Some a ->
    exists s, sets st !! a = Some s /\ s <> [];
  stored_below_next : forall a s,
    sets st !! a = Some s -> a < next st /\ NoDup s;
  keys_apart : forall k k' a,
    eventHandlers st !! k = Some a -> eventHandlers st !! k' = Some a ->
    k = k';
  closures_stored : forall u,
    In u us ->
    is_Some (sets st !! u_handlers u)
    /\ forall k, eventHandlers st !! k = Some (u_handlers u) ->
                 k = u_eventType u
}.

(** The handlers of a group: those of the [Set] that [eventHandlers.get]
    returned, none when it returned [undefined]. *)
Definition handlers_of (o : option (list handler)) : list handler :=
  match o with
  | Some s => s
  | None => []
  end.

(** ** Counting calls *)

Definition phase_eqb (p q : phase) : bool :=
  match p, q with
  | Direct, Direct | UnknownEvent, UnknownEvent
  | Specific, Specific | Wildcard, Wildcard => true
  | _, _ => false
  end.

(** The number of calls of [h] in phase [p] within a trace. *)
Definition invocations (p : phase) (h : handler) (t : list event) : nat :=
  length (List.filter
            (fun e => match e with
                      | Invoke p' h' _ => phase_eqb p p' && Nat.eqb h h'
                      | ConsoleError _ => false
                      end) t).

(** The calls made for [options.handlers]: the handler under the event
    type when the type is a property of the object, [onUnknownEvent]
    otherwise, each only when it holds a truthy value. *)
Definition direct_calls (handlers : TwitchWebhookHandlers) (key : string)
    (notification : json) : list event :=
  if hasProperty handlers key
  then match getProperty handlers key with
       | Some handler => [Invoke Direct handler notification]
       | None => []
       end
  else match getProperty handlers "onUnknownEvent" with
       | Some onUnknownEvent =>
           [Invoke UnknownEvent onUnknownEvent notification]
       | None => []
       end.

(** A signed request of a type the dispatcher does not know. *)
Definition unknown_type_request : Request :=
  request signature_empty_object "ping" body_empty_object.

(** * Properties *)

(** ** The constant-time comparison *)

Lemma CRYPTO_memcmp_zero (a b : list Z) (acc : Z) :
  length a = length b ->
  CRYPTO_memcmp a b acc = 0%Z <-> acc = 0%Z /\ a = b.
Proof.
  revert b acc.
  induction a as [|x a IH]; intros [|y b] acc Hlen; simpl in *;
    try discriminate.
  - intuition.
  - rewrite IH by congruence.
    rewrite Z.lor_eq_0_iff, Z.lxor_eq_0_iff.
    split.
    + intros [[-> ->] ->]. auto.
    + intros [-> [= -> ->]]. auto.
Qed.

Lemma timingSafeEqual_same_length (a b : list Z) :
  length a = length b ->
  timingSafeEqual a b = Normal (bool_decide (a = b)).
Proof.
  intros Hlen. unfold timingSafeEqual.
  rewrite Hlen, Nat.eqb_refl. f_equal.
  destruct (Z.eqb_spec (CRYPTO_memcmp a b 0) 0) as [H|H];
    rewrite CRYPTO_memcmp_zero in H by assumption.
  - destruct H as [_ ->]. by rewrite bool_decide_eq_true_2.
  - rewrite bool_decide_eq_false_2; [done|]. intros ->. by apply H.
Qed.

Lemma timingSafeEqual_other_length (a b : list Z) :
  length a <> length b -> timingSafeEqual a b = Throw RangeError.
Proof.
  intros Hlen. unfold timingSafeEqual.
  by destruct (Nat.eqb_spec (length a) (length b)).
Qed.

Lemma Buffer_from_length (s : string) :
  length (Buffer_from s) = String.length s.
Proof.
  unfold Buffer_from. rewrite length_map.
  induction s as [|c s IH]; simpl; congruence.
Qed.

Lemma Buffer_from_inj (a b : string) :
  Buffer_from a = Buffer_from b -> a = b.
Proof.
  unfold Buffer_from. revert b.
  induction a as [|x a IH]; intros [|y b]; simpl; try discriminate; auto.
  intros [= Hxy Hab]. f_equal; [|by apply IH].
  apply N2Z.inj in Hxy.
  rewrite <- (ascii_N_embedding x), <- (ascii_N_embedding y). congruence.
Qed.

(** [verifyMessage] of [src/src/webhook_handler.ts] decides equality of the
    two strings, and so answers [false] on different lengths. *)
Lemma verifyMessage_true_iff (a b : string) :
  verifyMessage a b = true <-> a = b.
Proof.
  unfold verifyMessage.
  destruct (decide (length (Buffer_from a) = length (Buffer_from b)))
    as [Hlen|Hlen].
  - rewrite timingSafeEqual_same_length by assumption.
    rewrite bool_decide_eq_true. split; [apply Buffer_from_inj | congruence].
  - rewrite timingSafeEqual_other_length by assumption.
    split; [discriminate | intros ->; by destruct Hlen].
Qed.

Lemma verifyMessage_refl (a : string) : verifyMessage a a = true.
Proof. by apply verifyMessage_true_iff. Qed.

Lemma verifyMessage_false_iff (a b : string) :
  verifyMessage a b = false <-> a <> b.
Proof.
  split.
  - intros H Heq. apply verifyMessage_true_iff in Heq. congruence.
  - intros H. destruct (verifyMessage a b) eqn:E; [|reflexivity].
    apply verifyMessage_true_iff in E. contradiction.
Qed.

Lemma verifyMessage_other_length (a b : string) :
  String.length a <> String.length b -> verifyMessage a b = false.
Proof. intros H. apply verifyMessage_false_iff. congruence. Qed.

(** The copy in [part_000] raises where the other answers [false]. *)
Lemma verifyMessage_part000_other_length (a b : string) :
  String.length a <> String.length b ->
  Part000.verifyMessage a b = Throw RangeError.
Proof.
  intros H. unfold Part000.verifyMessage.
  apply timingSafeEqual_other_length. by rewrite !Buffer_from_length.
Qed.

Lemma verifyMessage_part000_same_length (a b : string) :
  String.length a = String.length b ->
  Part000.verifyMessage a b = Normal (bool_decide (a = b)).
Proof.
  intros H. unfold Part000.verifyMessage.
  rewrite timingSafeEqual_same_length by by rewrite !Buffer_from_length.
  f_equal. apply bool_decide_ext. split; [apply Buffer_from_inj | congruence].
Qed.

Lemma one_char_changed_neq (a b : string) :
  one_char_changed a b = true -> a <> b.
Proof.
  revert b. induction a as [|x a IH]; intros [|y b]; simpl; try discriminate.
  destruct (Ascii.eqb_spec x y) as [->|Hxy].
  - intros H [= Hab]. by apply (IH b).
  - intros _ [= Hx _]. by apply Hxy.
Qed.

Lemma one_char_changed_length (a b : string) :
  one_char_changed a b = true -> String.length a = String.length b.
Proof.
  revert b. induction a as [|x a IH]; intros [|y b]; simpl; try discriminate.
  destruct (Ascii.eqb_spec x y) as [->|Hxy].
  - intros H. f_equal. by apply IH.
  - intros H%String.eqb_eq. by subst.
Qed.

(** ** Sequencing of asynchronous steps *)

Lemma bind_fulfilled {A B : Type} (m : async A) (k : A -> async B) (b : B) :
  result (m ≫= k) = Fulfilled b ->
  exists a, result m = Fulfilled a /\ result (k a) = Fulfilled b.
Proof.
  unfold mbind, async_bind. destruct (result m) as [a|e|]; simpl; try discriminate.
  intros H. by exists a.
Qed.

Lemma bind_trace {A B : Type} (m : async A) (k : A -> async B) :
  trace (m ≫= k)
  = (trace m ++ match result m with
                | Fulfilled a => trace (k a)
                | _ => []
                end)%list.
Proof.
  unfold mbind, async_bind.
  destruct (result m); simpl; by rewrite ?app_nil_r.
Qed.

Lemma bind_unit {A B : Type} (t : list event) (a : A) (k : A -> async B) :
  Async t (Fulfilled a) ≫= k = Async (t ++ trace (k a)) (result (k a)).
Proof. reflexivity. Qed.

Lemma async_eta {A : Type} (m : async A) : Async (trace m) (result m) = m.
Proof. by destruct m. Qed.

Lemma mret_bind {A B : Type} (a : A) (k : A -> async B) : mret a ≫= k = k a.
Proof. unfold mret, async_ret. rewrite bind_unit. simpl. apply async_eta. Qed.

Lemma bind_fulfilled_trace {A B : Type} (m : async A) (k : A -> async B)
    (b : B) :
  result (m ≫= k) = Fulfilled b ->
  exists a, result m = Fulfilled a /\ result (k a) = Fulfilled b
            /\ trace (m ≫= k) = (trace m ++ trace (k a))%list.
Proof.
  intros H. rewrite bind_trace.
  apply bind_fulfilled in H as (a & Ha & Hb). exists a. by rewrite Ha.
Qed.

Lemma in_bind_trace {A B : Type} (m : async A) (k : A -> async B)
    (e : event) :
  In e (trace (m ≫= k)) ->
  In e (trace m) \/ exists a, result m = Fulfilled a /\ In e (trace (k a)).
Proof.
  rewrite bind_trace, in_app_iff. intros [H|H]; [by left|].
  destruct (result m) as [a| |]; try done. right. by exists a.
Qed.

Lemma eval_fulfilled {A : Type} (c : completion A) (a : A) :
  result (eval c) = Fulfilled a -> c = Normal a.
Proof. destruct c; simpl; congruence. Qed.

Lemma eval_trace {A : Type} (c : completion A) : trace (eval c) = [].
Proof. by destruct c. Qed.

Lemma eval_normal_bind {A B : Type} (a : A) (k : A -> async B) :
  eval (Normal a) ≫= k = k a.
Proof. apply mret_bind. Qed.

Lemma bind_settles {A B : Type} (call : handler -> json -> behaviour)
    (m : async A) (k : A -> async B) :
  calls_settle call (m ≫= k) ->
  (calls_settle call m -> exists a, result m = Fulfilled a) ->
  (forall a, result m = Fulfilled a -> calls_settle call (k a) ->
             exists b, result (k a) = Fulfilled b) ->
  exists b, result (m ≫= k) = Fulfilled b.
Proof.
  unfold calls_settle. intros H Hm Hk.
  destruct Hm as [a Ha].
  { intros p h n Hin. apply (H p). rewrite bind_trace, in_app_iff. by left. }
  destruct (Hk a Ha) as [b Hb].
  { intros p h n Hin. apply (H p). rewrite bind_trace, in_app_iff, Ha.
    by right. }
  exists b. unfold mbind, async_bind. by rewrite Ha.
Qed.

(** ** Calling a group of handlers *)

Section Groups.

Variable call : handler -> json -> behaviour.

Lemma array_map_cons (p : phase) (h : handler) (hs : list handler)
    (n : json) :
  array_map call p (h :: hs) n =
    match call h n with
    | ThrowsSync => Async [Invoke p h n] (Rejected HandlerFailure)
    | b =>
        Async (Invoke p h n :: trace (array_map call p hs n))
          match result (array_map call p hs n) with
          | Fulfilled promises => Fulfilled (b :: promises)
          | Rejected e => Rejected e
          | Pending => Pending
          end
    end.
Proof.
  simpl. destruct (call h n); try reflexivity;
    rewrite bind_unit, bind_trace; unfold mbind, async_bind;
    destruct (result (array_map call p hs n)); simpl;
    by rewrite ?app_nil_r.
Qed.

Lemma array_map_trace_in (p : phase) (hs : list handler) (n : json)
    (e : event) :
  In e (trace (array_map call p hs n)) ->
  exists h, e = Invoke p h n /\ In h hs.
Proof.
  induction hs as [|h hs IH]; [done|].
  rewrite array_map_cons.
  destruct (call h n); simpl;
    (intros [<-|H]; [exists h; by auto|]); try done;
    destruct (IH H) as (h' & -> & Hin); exists h'; by auto.
Qed.

Lemma array_map_fulfilled (p : phase) (hs : list handler) (n : json)
    (promises : list behaviour) :
  result (array_map call p hs n) = Fulfilled promises ->
  trace (array_map call p hs n) = map (fun h => Invoke p h n) hs.
Proof.
  revert promises. induction hs as [|h hs IH]; intros promises; [done|].
  rewrite array_map_cons.
  destruct (call h n); simpl; try discriminate;
    destruct (result (array_map call p hs n)) as [ps| |]; try discriminate;
    intros _; f_equal; by apply (IH ps).
Qed.

Lemma array_map_settles (p : phase) (hs : list handler) (n : json) :
  calls_settle call (array_map call p hs n) ->
  result (array_map call p hs n) = Fulfilled (map (fun _ => Settles) hs).
Proof.
  unfold calls_settle.
  induction hs as [|h hs IH]; [done|].
  rewrite array_map_cons. intros H.
  assert (call h n = Settles) as Hh.
  { apply (H p). destruct (call h n); simpl; auto. }
  rewrite Hh in *. simpl in *. rewrite IH; [done|].
  intros p' h' n' Hin. apply (H p'). by right.
Qed.

Lemma await_all_trace (p : phase) (hs : list handler) (n : json) :
  trace (await_all call p hs n) = trace (array_map call p hs n).
Proof.
  unfold await_all. rewrite bind_trace.
  destruct (result (array_map call p hs n)); simpl; by rewrite app_nil_r.
Qed.

Lemma await_all_trace_in (p : phase) (hs : list handler) (n : json)
    (e : event) :
  In e (trace (await_all call p hs n)) ->
  exists h, e = Invoke p h n /\ In h hs.
Proof. rewrite await_all_trace. apply array_map_trace_in. Qed.

Lemma await_all_fulfilled (p : phase) (hs : list handler) (n : json)
    (u : unit) :
  result (await_all call p hs n) = Fulfilled u ->
  trace (await_all call p hs n) = map (fun h => Invoke p h n) hs.
Proof.
  rewrite await_all_trace. unfold await_all.
  intros (promises & H & _)%bind_fulfilled.
  by apply (array_map_fulfilled _ _ _ promises).
Qed.

Lemma Promise_all_settled (hs : list handler) :
  Promise_all (map (fun _ => Settles) hs) = Async [] (Fulfilled tt).
Proof.
  unfold Promise_all.
  assert (forall f, (forall b, f b = true -> b <> Settles) ->
                    existsb f (map (fun _ : handler => Settles) hs) = false)
    as Hnone.
  { intros f Hf. induction hs as [|h hs' IH]; [done|]. simpl.
    destruct (f Settles) eqn:E; [by apply Hf in E|done]. }
  rewrite !Hnone; [done| |]; by intros [].
Qed.

Lemma await_all_settles (p : phase) (hs : list handler) (n : json) :
  calls_settle call (await_all call p hs n) ->
  result (await_all call p hs n) = Fulfilled tt.
Proof.
  unfold calls_settle. rewrite await_all_trace. intros H.
  unfold await_all.
  pose proof (array_map_settles p hs n H) as Hmap.
  unfold mbind, async_bind. rewrite Hmap. by rewrite Promise_all_settled.
Qed.

End Groups.

Section DispatcherProperties.

Variable createHmac_sha256_hex : string -> string -> string.
Variable JSON_parse : string -> option json.
Variable ToPropertyKey : value -> completion string.
Variable call : handler -> json -> behaviour.
Variable emptyObject : TwitchWebhookHandlers.

#[local] Abbreviation handle :=
  (handleTwitchWebhook createHmac_sha256_hex JSON_parse ToPropertyKey call
     emptyObject).
#[local] Abbreviation handle000 :=
  (Part000.handleTwitchWebhook createHmac_sha256_hex JSON_parse
     ToPropertyKey call emptyObject).
#[local] Abbreviation expected := (expectedSignature createHmac_sha256_hex).
#[local] Abbreviation handlersOf options :=
  (match handlers options with
   | Some handlers => handlers
   | None => emptyObject
   end).

(** Past the header checks. *)
Lemma handle_checked (request : Request) (options : TwitchWebhookOptions)
    (st : Registry) :
  headers_present request = true ->
  handle request options st =
    match JSON_parse (text request) with
    | None => Async [] (Fulfilled (errorResult 400 "Invalid JSON body"))
    | Some bodyJson =>
        if negb (verifyMessage (expected (secret options) request)
                   (str (signature_of request)))
        then Async [] (Fulfilled (errorResult 401 "Invalid signature"))
        else
          let messageType := str (messageType_of request) in
          if String.eqb messageType "notification"
          then notification_case ToPropertyKey call (handlersOf options)
                 bodyJson st
          else if String.eqb messageType "webhook_callback_verification"
          then verification_case bodyJson
          else Async [] (Fulfilled (errorResult 400
                                      ("Invalid message type: "
                                       ++ messageType)))
    end.
Proof.
  unfold headers_present, handleTwitchWebhook, expectedSignature, getHmac,
    messageId_of, timestamp_of, signature_of, messageType_of.
  intros H.
  repeat (apply andb_prop in H as [H ?]).
  repeat match goal with
         | H : negb ?b = true |- _ => apply negb_true_iff in H; rewrite H
         end.
  reflexivity.
Qed.

Lemma notification_case_fulfilled (handlers : TwitchWebhookHandlers)
    (bodyJson : json) (st : Registry) (r : TwitchWebhookResult) :
  result (notification_case ToPropertyKey call handlers bodyJson st)
  = Fulfilled r ->
  r = noContent.
Proof.
  unfold notification_case. intros H.
  repeat (apply bind_fulfilled in H as (? & _ & H)).
  by injection H as <-.
Qed.

Lemma verification_case_status (bodyJson : json) (r : TwitchWebhookResult) :
  result (verification_case bodyJson) = Fulfilled r ->
  status r = 400%Z \/ status r = 200%Z.
Proof.
  unfold verification_case. intros H.
  apply bind_fulfilled in H as (challenge & _ & H).
  destruct (truthy challenge); simpl in H; injection H as <-; auto.
Qed.

Lemma handle_missing_id_timestamp (request : Request)
    (options : TwitchWebhookOptions) (st : Registry) :
  missing (messageId_of request) = true
  \/ missing (timestamp_of request) = true ->
  handle request options st
  = Async [] (Fulfilled (errorResult 400 msg_missing_id_timestamp)).
Proof.
  unfold handleTwitchWebhook, messageId_of, timestamp_of.
  intros [-> | ->]; [reflexivity|].
  by rewrite orb_true_r.
Qed.

(** C7: the header checks come in a fixed order and give three distinct
    400 answers.  A header counts as absent when [headers.get] yields
    [null] or the empty string, which is the test the code makes.  When the
    message-id or the timestamp header is absent the answer names both,
    whatever the other headers are; when these two are present and the
    signature header is absent the answer names the signature header; when
    only the message-type header is absent the answer names that header;
    the three answers differ from one another. *)
Theorem C7_header_checks (request : Request) (options : TwitchWebhookOptions)
    (st : Registry) :
  (missing (messageId_of request) = true
   \/ missing (timestamp_of request) = true ->
   handle request options st
   = Async [] (Fulfilled (errorResult 400 msg_missing_id_timestamp)))
  /\ (missing (messageId_of request) = false ->
      missing (timestamp_of request) = false ->
      missing (signature_of request) = true ->
      handle request options st
      = Async [] (Fulfilled (errorResult 400 msg_missing_signature)))
  /\ (missing (messageId_of request) = false ->
      missing (timestamp_of request) = false ->
      missing (signature_of request) = false ->
      missing (messageType_of request) = true ->
      handle request options st
      = Async [] (Fulfilled (errorResult 400 msg_missing_type)))
  /\ (mentions msg_missing_id_timestamp "twitch-eventsub-message-id" = true
      /\ mentions msg_missing_id_timestamp
           "twitch-eventsub-message-timestamp" = true
      /\ mentions msg_missing_signature
           "twitch-eventsub-message-signature" = true
      /\ mentions msg_missing_type "twitch-eventsub-message-type" = true)
  /\ (errorResult 400 msg_missing_id_timestamp
      <> errorResult 400 msg_missing_signature
      /\ errorResult 400 msg_missing_id_timestamp
         <> errorResult 400 msg_missing_type
      /\ errorResult 400 msg_missing_signature
         <> errorResult 400 msg_missing_type).
Proof.
  split; [apply handle_missing_id_timestamp|].
  split.
  { unfold handleTwitchWebhook, messageId_of, timestamp_of, signature_of.
    by intros -> -> ->. }
  split.
  { unfold handleTwitchWebhook, messageId_of, timestamp_of, signature_of,
      messageType_of.
    by intros -> -> -> ->. }
  split; [by vm_compute|].
  repeat split; by vm_compute.
Qed.

(** C6: with the four headers present, a body that is not JSON is answered
    400 "Invalid JSON body" whatever the signature header holds; a body
    that is JSON is answered 401 exactly when the signature header differs
    from "sha256=" followed by the HMAC of messageId + timestamp + the raw
    body text; so a 401 is given only after parsing has succeeded, and the
    parsed value plays no part in the comparison. *)
Theorem C6_json_before_signature (request : Request)
    (options : TwitchWebhookOptions) (st : Registry) :
  headers_present request = true ->
  (JSON_parse (text request) = None ->
   handle request options st
   = Async [] (Fulfilled (errorResult 400 "Invalid JSON body")))
  /\ (forall bodyJson,
        JSON_parse (text request) = Some bodyJson ->
        str (signature_of request) <> expected (secret options) request ->
        handle request options st
        = Async [] (Fulfilled (errorResult 401 "Invalid signature")))
  /\ (forall r,
        result (handle request options st) = Fulfilled r ->
        status r = 401%Z ->
        (exists bodyJson, JSON_parse (text request) = Some bodyJson)
        /\ str (signature_of request) <> expected (secret options) request).
Proof.
  intros Hpresent. rewrite (handle_checked _ _ _ Hpresent).
  split; [by intros ->|].
  split.
  - intros bodyJson -> Hsig.
    apply not_eq_sym, verifyMessage_false_iff in Hsig. by rewrite Hsig.
  - intros r. destruct (JSON_parse (text request)) as [bodyJson|];
      [|by intros [= <-]].
    destruct (verifyMessage _ _) eqn:Hverify; simpl.
    + intros Hr H401. exfalso. revert Hr.
      destruct (String.eqb _ "notification");
        [|destruct (String.eqb _ "webhook_callback_verification")].
      * intros ->%notification_case_fulfilled. discriminate.
      * intros [Hs|Hs]%verification_case_status; lia.
      * intros [= <-]. discriminate.
    + intros _ _. split; [by eexists|].
      apply verifyMessage_false_iff in Hverify. congruence.
Qed.

(** C4: a signature header that is a valid signature with exactly one
    character replaced is answered 401 "Invalid signature" (the headers
    being present and the body being JSON, so that the comparison is
    reached). *)
Theorem C4_one_character_changed (request : Request)
    (options : TwitchWebhookOptions) (st : Registry) (bodyJson : json) :
  headers_present request = true ->
  JSON_parse (text request) = Some bodyJson ->
  one_char_changed (expected (secret options) request)
    (str (signature_of request)) = true ->
  handle request options st
  = Async [] (Fulfilled (errorResult 401 "Invalid signature")).
Proof.
  intros Hpresent Hparse Hchanged.
  rewrite (handle_checked _ _ _ Hpresent), Hparse.
  apply one_char_changed_neq, verifyMessage_false_iff in Hchanged.
  by rewrite Hchanged.
Qed.

(** A request of the given type that carries the four headers and the
    expected signature, and whose body is JSON, reaches the [switch]. *)
Lemma handle_verified (request : Request) (options : TwitchWebhookOptions)
    (st : Registry) (bodyJson : json) :
  headers_present request = true ->
  signature_of request = Some (expected (secret options) request) ->
  JSON_parse (text request) = Some bodyJson ->
  handle request options st =
    let messageType := str (messageType_of request) in
    if String.eqb messageType "notification"
    then notification_case ToPropertyKey call (handlersOf options)
           bodyJson st
    else if String.eqb messageType "webhook_callback_verification"
    then verification_case bodyJson
    else Async [] (Fulfilled (errorResult 400
                                ("Invalid message type: " ++ messageType))).
Proof.
  intros Hpresent Hsig Hparse.
  rewrite (handle_checked _ _ _ Hpresent), Hparse, Hsig. simpl str at 1.
  by rewrite verifyMessage_refl.
Qed.

Lemma handle_verification (request : Request)
    (options : TwitchWebhookOptions) (st : Registry) (bodyJson : json) :
  headers_present request = true ->
  signature_of request = Some (expected (secret options) request) ->
  messageType_of request = Some "webhook_callback_verification" ->
  JSON_parse (text request) = Some bodyJson ->
  handle request options st = verification_case bodyJson.
Proof.
  intros Hpresent Hsig Htype Hparse.
  by rewrite (handle_verified _ _ _ _ Hpresent Hsig Hparse), Htype.
Qed.

Lemma handle_notification (request : Request)
    (options : TwitchWebhookOptions) (st : Registry) (bodyJson : json) :
  headers_present request = true ->
  signature_of request = Some (expected (secret options) request) ->
  messageType_of request = Some "notification" ->
  JSON_parse (text request) = Some bodyJson ->
  handle request options st
  = notification_case ToPropertyKey call (handlersOf options) bodyJson st.
Proof.
  intros Hpresent Hsig Htype Hparse.
  by rewrite (handle_verified _ _ _ _ Hpresent Hsig Hparse), Htype.
Qed.

(** C10: a challenge field holding the empty string, 0, false or null is
    answered 400 "Missing challenge in verification request": the test is
    on the truth value of the challenge, not on the presence of the key. *)
Theorem C10_falsy_challenge (request : Request)
    (options : TwitchWebhookOptions) (st : Registry)
    (props : list (string * json)) (challenge : json) :
  headers_present request = true ->
  signature_of request = Some (expected (secret options) request) ->
  messageType_of request = Some "webhook_callback_verification" ->
  JSON_parse (text request) = Some (JObj props) ->
  assoc "challenge" props = Some challenge ->
  challenge = JStr "" \/ challenge = JNum 0%float
  \/ challenge = JBool false \/ challenge = JNull ->
  handle request options st
  = Async [] (Fulfilled (errorResult 400
                           "Missing challenge in verification request")).
Proof.
  intros Hpresent Hsig Htype Hparse Hchallenge Hfalsy.
  rewrite (handle_verification _ _ _ _ Hpresent Hsig Htype Hparse).
  unfold verification_case, getProp. rewrite Hchallenge.
  by destruct Hfalsy as [-> | [-> | [-> | ->]]].
Qed.

(** C8, as the code has it: for a validly signed request of type
    "webhook_callback_verification" whose body is JSON, a challenge that is
    a non-empty string is answered 200 with content-type text/plain and
    that very string as body; a body that is not null and has no challenge
    is answered 400 "Missing challenge in verification request". *)
Theorem C8_challenge_echo (request : Request)
    (options : TwitchWebhookOptions) (st : Registry) (bodyJson : json) :
  headers_present request = true ->
  signature_of request = Some (expected (secret options) request) ->
  messageType_of request = Some "webhook_callback_verification" ->
  JSON_parse (text request) = Some bodyJson ->
  (forall challenge : string,
      getProp (Some bodyJson) "challenge" = Normal (Some (JStr challenge)) ->
      challenge <> "" ->
      handle request options st
      = Async [] (Fulfilled
                    {| status := 200;
                       headers := Some [("content-type", "text/plain")];
                       body := Some (JStr challenge) |}))
  /\ (getProp (Some bodyJson) "challenge" = Normal None ->
      handle request options st
      = Async [] (Fulfilled (errorResult 400
                               "Missing challenge in verification request"))).
Proof.
  intros Hpresent Hsig Htype Hparse.
  rewrite (handle_verification _ _ _ _ Hpresent Hsig Htype Hparse).
  unfold verification_case. split.
  - intros challenge -> Hne. unfold eval. rewrite bind_unit. cbn [truthy].
    destruct (String.eqb_spec challenge ""); [contradiction|reflexivity].
  - by intros ->.
Qed.

(** ** The notification case *)

Lemma notification_case_invokes (handlers : TwitchWebhookHandlers)
    (bodyJson : json) (st : Registry) (p : phase) (h : handler) (n : json) :
  In (Invoke p h n)
     (trace (notification_case ToPropertyKey call handlers bodyJson st)) ->
  n = bodyJson
  /\ (p = Specific ->
      exists eventType s,
        eventType_of bodyJson = Normal eventType
        /\ Map_get st eventType = Some s /\ In h s)
  /\ (p = Wildcard -> registered st "*" h).
Proof.
  unfold notification_case. intros H.
  apply in_bind_trace in H as [H | (subscription & Hsub & H)];
    [by rewrite eval_trace in H|].
  apply in_bind_trace in H as [H | (eventType & Hty & H)];
    [by rewrite eval_trace in H|].
  apply in_bind_trace in H as [H | (key & Hkey & H)];
    [by rewrite eval_trace in H|].
  apply eval_fulfilled in Hsub, Hty.
  assert (eventType_of bodyJson = Normal eventType) as Hevent
    by (unfold eventType_of; by rewrite Hsub).
  apply in_bind_trace in H as [H | (? & _ & H)].
  { destruct (hasProperty handlers key); [|done].
    destruct (getProperty handlers key); [|done].
    apply await_all_trace_in in H as (h' & [= -> -> ->] & _). by repeat split. }
  apply in_bind_trace in H as [H | (? & _ & H)].
  { destruct (negb (hasProperty handlers key)); [|done].
    destruct (getProperty handlers "onUnknownEvent"); [|done].
    apply await_all_trace_in in H as (h' & [= -> -> ->] & _). by repeat split. }
  apply in_bind_trace in H as [H | (? & _ & H)].
  { destruct (Map_get st eventType) as [s|] eqn:Hget; [|done].
    apply await_all_trace_in in H as (h' & [= -> -> ->] & Hin).
    split; [done|]. split; [|done]. intros _. by exists eventType, s. }
  apply in_bind_trace in H as [H | (? & _ & H)]; [|done].
  destruct (eventHandlers_get st "*") as [s|] eqn:Hget; [|done].
  apply await_all_trace_in in H as (h' & [= -> -> ->] & Hin).
  split; [done|]. split; [done|]. intros _. by exists s.
Qed.

Lemma notification_case_completed (handlers : TwitchWebhookHandlers)
    (bodyJson : json) (st : Registry) (r : TwitchWebhookResult) :
  result (notification_case ToPropertyKey call handlers bodyJson st)
  = Fulfilled r ->
  exists eventType,
    eventType_of bodyJson = Normal eventType
    /\ (forall s h,
          Map_get st eventType = Some s -> In h s ->
          In (Invoke Specific h bodyJson)
             (trace (notification_case ToPropertyKey call handlers
                       bodyJson st)))
    /\ (forall h,
          registered st "*" h ->
          In (Invoke Wildcard h bodyJson)
             (trace (notification_case ToPropertyKey call handlers
                       bodyJson st))).
Proof.
  unfold notification_case. intros H.
  apply bind_fulfilled_trace in H as (subscription & Hsub & H & ->).
  apply bind_fulfilled_trace in H as (eventType & Hty & H & ->).
  apply bind_fulfilled_trace in H as (key & Hkey & H & ->).
  apply bind_fulfilled_trace in H as ([] & _ & H & ->).
  apply bind_fulfilled_trace in H as ([] & _ & H & ->).
  apply bind_fulfilled_trace in H as ([] & Hspecific & H & ->).
  apply bind_fulfilled_trace in H as ([] & Hwildcard & H & ->).
  apply eval_fulfilled in Hsub, Hty.
  exists eventType. split; [unfold eventType_of; by rewrite Hsub|].
  split.
  - intros s h Hget Hin. rewrite Hget in *.
    rewrite (await_all_fulfilled _ _ _ _ _ Hspecific).
    rewrite !in_app_iff, in_map_iff. do 5 right. left. by exists h.
  - intros h (s & Hget & Hin). rewrite Hget in *.
    rewrite (await_all_fulfilled _ _ _ _ _ Hwildcard).
    rewrite !in_app_iff, in_map_iff. do 6 right. left. by exists h.
Qed.

Lemma notification_case_settles (handlers : TwitchWebhookHandlers)
    (bodyJson : json) (st : Registry) (eventType : value) (key : string) :
  eventType_of bodyJson = Normal eventType ->
  propertyKey ToPropertyKey eventType = Normal key ->
  calls_settle call
    (notification_case ToPropertyKey call handlers bodyJson st) ->
  result (notification_case ToPropertyKey call handlers bodyJson st)
  = Fulfilled noContent.
Proof.
  intros Hevent Hkey Hsettle.
  cut (exists r,
          result (notification_case ToPropertyKey call handlers bodyJson st)
          = Fulfilled r).
  { intros [r Hr]. by rewrite Hr, (notification_case_fulfilled _ _ _ _ Hr). }
  revert Hsettle. unfold notification_case, eventType_of in *.
  destruct (getProp (Some bodyJson) "subscription") as [subscription|];
    [|discriminate].
  rewrite eval_normal_bind, Hevent, eval_normal_bind, Hkey, eval_normal_bind.
  unfold await_call. intros Hsettle.
  repeat (apply (bind_settles call _ _ Hsettle);
          [ intros Hstep; repeat case_match;
            first [ by exists tt | exists tt; by apply await_all_settles ]
          | clear Hsettle; intros [] _ Hsettle ]).
  by eexists.
Qed.

(** C3, as the code has it: a notification-type request with non-empty
    message id and timestamp, carrying the signature "sha256=" followed by
    the HMAC of messageId + timestamp + body, whose body is JSON from which
    subscription.type can be read and used as a property key (as it can
    when the subscription is an object and its type a string), is answered
    204, provided every handler call the dispatcher makes for it returns,
    or returns a promise that fulfils. *)
Theorem C3_signed_notification (request : Request)
    (options : TwitchWebhookOptions) (st : Registry) (bodyJson : json)
    (eventType : value) (key : string) :
  missing (messageId_of request) = false ->
  missing (timestamp_of request) = false ->
  signature_of request = Some (expected (secret options) request) ->
  messageType_of request = Some "notification" ->
  JSON_parse (text request) = Some bodyJson ->
  eventType_of bodyJson = Normal eventType ->
  propertyKey ToPropertyKey eventType = Normal key ->
  calls_settle call (handle request options st) ->
  result (handle request options st) = Fulfilled noContent
  /\ status noContent = 204%Z.
Proof.
  intros Hid Hts Hsig Htype Hparse Hevent Hkey.
  assert (headers_present request = true) as Hpresent.
  { unfold headers_present. by rewrite Hid, Hts, Hsig, Htype. }
  rewrite (handle_notification _ _ _ _ Hpresent Hsig Htype Hparse).
  intros Hsettle. split; [|done].
  by apply (notification_case_settles _ _ _ eventType key).
Qed.

(** C9, as the code has it: for a dispatched notification, a handler is
    invoked from the registry only if it is registered under the exact
    event type (the type-specific group) or under "*" (the wildcard group);
    and whenever the dispatcher answers, which it does when no handler call
    throws, rejects or hangs, every handler registered under the exact type
    has been invoked in the first group and every handler registered under
    "*" in the second as well. *)
Theorem C9_registry_dispatch (request : Request)
    (options : TwitchWebhookOptions) (st : Registry) (bodyJson : json)
    (eventType : string) :
  headers_present request = true ->
  signature_of request = Some (expected (secret options) request) ->
  messageType_of request = Some "notification" ->
  JSON_parse (text request) = Some bodyJson ->
  eventType_of bodyJson = Normal (Some (JStr eventType)) ->
  (forall h n,
      In (Invoke Specific h n) (trace (handle request options st)) ->
      n = bodyJson /\ registered st eventType h)
  /\ (forall h n,
        In (Invoke Wildcard h n) (trace (handle request options st)) ->
        n = bodyJson /\ registered st "*" h)
  /\ (forall r,
        result (handle request options st) = Fulfilled r ->
        forall h,
          (registered st eventType h ->
           In (Invoke Specific h bodyJson)
              (trace (handle request options st)))
          /\ (registered st "*" h ->
              In (Invoke Wildcard h bodyJson)
                 (trace (handle request options st)))).
Proof.
  intros Hpresent Hsig Htype Hparse Hevent.
  rewrite (handle_notification _ _ _ _ Hpresent Hsig Htype Hparse).
  split; [|split].
  - intros h n (-> & Hspecific & _)%notification_case_invokes.
    split; [done|].
    destruct (Hspecific eq_refl) as (eventType' & s & Hevent' & Hget & Hin).
    rewrite Hevent in Hevent'. injection Hevent' as <-. by exists s.
  - intros h n (-> & _ & Hwildcard)%notification_case_invokes. auto.
  - intros r (eventType' & Hevent' & Hspecific & Hwildcard)
      %notification_case_completed h.
    rewrite Hevent in Hevent'. injection Hevent' as <-.
    split; [|by apply Hwildcard].
    intros (s & Hget & Hin). by apply (Hspecific s).
Qed.

(** The copy in [part_000] answers a revocation with 204 after logging the
    payload. *)
Lemma revocation_part000 (request : Request)
    (options : TwitchWebhookOptions) (st : Registry) (bodyJson : json) :
  headers_present request = true ->
  signature_of request = Some (expected (secret options) request) ->
  messageType_of request = Some "revocation" ->
  JSON_parse (text request) = Some bodyJson ->
  handle000 request options st
  = Async [ConsoleError bodyJson] (Fulfilled noContent).
Proof.
  unfold headers_present, Part000.handleTwitchWebhook, expectedSignature,
    Part000.getHmac, messageId_of, timestamp_of, signature_of,
    messageType_of.
  intros H Hsig Htype Hparse.
  repeat (apply andb_prop in H as [H ?]).
  repeat match goal with
         | H : negb ?b = true |- _ => apply negb_true_iff in H; rewrite H
         end.
  cbn [orb]. rewrite Hparse, Hsig, Htype. cbn [str].
  rewrite verifyMessage_part000_same_length by reflexivity.
  by rewrite bool_decide_eq_true_2.
Qed.

(** [src/src/webhook_handler.ts] has no "revocation" case: a validly signed
    revocation falls to the [default] of the [switch]. *)
Lemma revocation_default (request : Request)
    (options : TwitchWebhookOptions) (st : Registry) (bodyJson : json) :
  headers_present request = true ->
  signature_of request = Some (expected (secret options) request) ->
  messageType_of request = Some "revocation" ->
  JSON_parse (text request) = Some bodyJson ->
  handle request options st
  = Async [] (Fulfilled (errorResult 400 "Invalid message type: revocation")).
Proof.
  intros Hpresent Hsig Htype Hparse.
  by rewrite (handle_verified _ _ _ _ Hpresent Hsig Hparse), Htype.
Qed.

End DispatcherProperties.

(** ** The registry *)

Lemma Set_delete_twice (h : handler) (s : list handler) :
  Set_delete h (Set_delete h s) = Set_delete h s.
Proof.
  unfold Set_delete. induction s as [|x s IH]; [done|].
  simpl. destruct (negb (h =? x)%nat) eqn:E; simpl; by rewrite ?E, IH.
Qed.

Lemma unsubscribe_sets (u : Unsubscribe) (st : Registry) :
  sets (unsubscribe u st)
  = <[u_handlers u := Set_delete (u_handler u) (setAt st (u_handlers u))]>
      (sets st).
Proof. unfold unsubscribe. by destruct (_ =? _)%nat. Qed.

Lemma unsubscribe_next (u : Unsubscribe) (st : Registry) :
  next (unsubscribe u st) = next st.
Proof. unfold unsubscribe. by destruct (_ =? _)%nat. Qed.

Lemma setAt_unsubscribe (u : Unsubscribe) (st : Registry) :
  setAt (unsubscribe u st) (u_handlers u)
  = Set_delete (u_handler u) (setAt st (u_handlers u)).
Proof. unfold setAt at 1. by rewrite unsubscribe_sets, lookup_insert_eq. Qed.

Lemma Set_delete_add (h : handler) (s : list handler) :
  Set_delete h (Set_add h s) = Set_delete h s.
Proof.
  unfold Set_add, Set_delete. destruct (existsb (Nat.eqb h) s); [done|].
  rewrite List.filter_app. simpl. by rewrite Nat.eqb_refl, app_nil_r.
Qed.

(** Called right after the registration, the returned function takes the
    handler out of the set of its key and drops the key when nothing is
    left in the set. *)
Lemma unsubscribe_after_on (eventType : string) (h : handler)
    (st : Registry) :
  eventHandlers_get (unsubscribe (on eventType h st).1 (on eventType h st).2)
    eventType
  = match eventHandlers_get st eventType with
    | Some s =>
        if (length (Set_delete h s) =? 0)%nat then None
        else Some (Set_delete h s)
    | None => None
    end.
Proof.
  unfold eventHandlers_get, unsubscribe, on, setAt.
  destruct (eventHandlers st !! eventType) as [a|] eqn:Hkey; simpl.
  - rewrite Hkey. simpl. rewrite lookup_insert_eq, Set_delete_add.
    destruct (length _ =? 0)%nat; simpl.
    + by rewrite lookup_delete_eq.
    + by rewrite Hkey, lookup_insert_eq.
  - rewrite !lookup_insert_eq. simpl.
    rewrite Nat.eqb_refl. simpl. by rewrite lookup_delete_eq.
Qed.

(** Calling the returned function again right away changes nothing. *)
Lemma unsubscribe_twice (u : Unsubscribe) (st : Registry) :
  unsubscribe u (unsubscribe u st) = unsubscribe u st.
Proof.
  unfold unsubscribe at 1.
  rewrite setAt_unsubscribe, Set_delete_twice, unsubscribe_sets,
    insert_insert_eq, unsubscribe_next.
  unfold unsubscribe.
  destruct (length (Set_delete _ _) =? 0)%nat; simpl;
    by rewrite ?delete_delete_eq.
Qed.

(** * Evaluations on the concrete runtime *)

Example sha256_abc :
  SHA256.hex (SHA256.digest (Buffer_from "abc"))
  = "ba7816bf8f01cfea414140de5dae2223b00361a396177a9cb410ff61f20015ad".
Proof. vm_compute. reflexivity. Qed.

Example hmac_sha256_key_fox :
  Runtime.hmac "key" "The quick brown fox jumps over the lazy dog"
  = "f7bc83f430538424b13298e6aa6fb143ef4d59a14946175997479dbc2d1a3cd8".
Proof. vm_compute. reflexivity. Qed.

Ltac conjuncts :=
  repeat match goal with |- _ /\ _ => split end.

Ltac evaluate := conjuncts; vm_compute; try reflexivity.

Example signatures :
  signature_empty_object
  = "sha256=e97d0faf7e03d5244caee3970b8c1f84eced2a0e5aab0f17e9fea7b5b8597dbf"
  /\ signature_follow
     = "sha256=8c747ea508b7219619009bb771994619f10437b1d82e74a52cce188795376368"
  /\ signature_challenge
     = "sha256=c3e4fdb8e82c52217d060611595fcab71fb7a2535b6e9204ba4e646f752b863c"
  /\ signature_empty_challenge
     = "sha256=7ade81bdffe912c38c9edd1b3667112b9ae4fa90a8745487535f4c5a2316ed90".
Proof. by conjuncts. Qed.

Example parse_body_follow : Runtime.parse body_follow = Some json_follow.
Proof. by vm_compute. Qed.

(** C1: a validly signed revocation whose body is the empty object.  The
    [switch] of [src/src/webhook_handler.ts] has no "revocation" case and
    answers 400 "Invalid message type: revocation"; the copy in [part_000]
    answers 204. *)
Theorem C1_revocation_two_copies :
  headers_present revocation_request = true
  /\ Runtime.parse (text revocation_request) = Some (JObj [])
  /\ signature_of revocation_request
     = Some (expectedSignature Runtime.hmac ex_secret revocation_request)
  /\ messageType_of revocation_request = Some "revocation"
  /\ Runtime.handleTwitchWebhook revocation_request ex_options emptyRegistry
     = Async [] (Fulfilled
                   (errorResult 400 "Invalid message type: revocation"))
  /\ Runtime.handleTwitchWebhook_part000 revocation_request ex_options
       emptyRegistry
     = Async [ConsoleError (JObj [])] (Fulfilled noContent).
Proof. evaluate. Qed.

(** C2: [off = on("channel.follow", h1); off(); on("channel.follow", h2);
    off()].  The second call of [off] finds its own, empty [Set] and
    deletes the key, which by then holds the [Set] of [h2]: the registry
    changes, and a notification no longer reaches [h2]. *)
Theorem C2_second_call_removes_other_handler :
  eventHandlers_get first_registration.2 "channel.follow" = Some [1]
  /\ eventHandlers_get after_first_call "channel.follow" = None
  /\ eventHandlers_get second_registration.2 "channel.follow" = Some [2]
  /\ eventHandlers_get after_second_call "channel.follow" = None
  /\ after_second_call <> second_registration.2
  /\ trace (Runtime.handleTwitchWebhook follow_notification ex_options
              second_registration.2)
     = [Invoke Specific 2 json_follow]
  /\ trace (Runtime.handleTwitchWebhook follow_notification ex_options
              after_second_call)
     = [].
Proof. evaluate. by intros [=]. Qed.

(** C5: on two strings of different lengths [verifyMessage] of
    [src/src/webhook_handler.ts] answers [false], and the copy in
    [part_000] raises a [RangeError]; a request with a short signature
    header is answered 401 by the first and makes the promise of the
    second reject. *)
Theorem C5_different_lengths_two_copies :
  verifyMessage "sha256=ab" "sha256=abc" = false
  /\ Part000.verifyMessage "sha256=ab" "sha256=abc" = Throw RangeError
  /\ Runtime.handleTwitchWebhook short_signature_request ex_options
       emptyRegistry
     = Async [] (Fulfilled (errorResult 401 "Invalid signature"))
  /\ Runtime.handleTwitchWebhook_part000 short_signature_request ex_options
       emptyRegistry
     = Async [] (Rejected RangeError).
Proof. evaluate. Qed.

(** A validly signed notification whose wildcard group is never reached:
    the promise of handler 2, registered under "channel.follow", rejects,
    and with it the promise of the dispatcher; handler 1, registered under
    "*", is not invoked. *)
Lemma C3_counterexample_rejecting_handler :
  missing (messageId_of follow_notification) = false
  /\ missing (timestamp_of follow_notification) = false
  /\ signature_of follow_notification
     = Some (expectedSignature Runtime.hmac ex_secret follow_notification)
  /\ messageType_of follow_notification = Some "notification"
  /\ Runtime.parse (text follow_notification) = Some json_follow
  /\ result (Runtime.handleTwitchWebhook follow_notification ex_options
               registry_rejecting)
     = Rejected HandlerFailure.
Proof. evaluate. Qed.

(** The same notification and registry: handler 1 is registered under
    "*" and is not invoked. *)
Lemma C9_counterexample_wildcard_not_invoked :
  signature_of follow_notification
  = Some (expectedSignature Runtime.hmac ex_secret follow_notification)
  /\ messageType_of follow_notification = Some "notification"
  /\ Runtime.parse (text follow_notification) = Some json_follow
  /\ registered registry_rejecting "*" 1
  /\ trace (Runtime.handleTwitchWebhook follow_notification ex_options
              registry_rejecting)
     = [Invoke Specific 2 json_follow]
  /\ ~ In (Invoke Wildcard 1 json_follow)
         (trace (Runtime.handleTwitchWebhook follow_notification ex_options
                   registry_rejecting)).
Proof.
  conjuncts; try (vm_compute; reflexivity).
  - exists [1]. split; [vm_compute; reflexivity | by left].
  - vm_compute. by intros [|[]].
Qed.

(** A validly signed verification request whose body is an object with
    the empty string as challenge: the body has a challenge string, and the
    answer is 400, not 200. *)
Lemma C8_counterexample_empty_challenge :
  signature_of empty_challenge_request
  = Some (expectedSignature Runtime.hmac ex_secret empty_challenge_request)
  /\ messageType_of empty_challenge_request
     = Some "webhook_callback_verification"
  /\ Runtime.parse (text empty_challenge_request)
     = Some (JObj [("challenge", JStr "")])
  /\ Runtime.handleTwitchWebhook empty_challenge_request ex_options
       emptyRegistry
     = Async [] (Fulfilled
                   (errorResult 400
                      "Missing challenge in verification request")).
Proof. evaluate. Qed.

(** ** The theorems at concrete requests *)

Lemma C3_witness :
  calls_settle Runtime.call
    (Runtime.handleTwitchWebhook follow_notification ex_options
       registry_settling)
  /\ result (Runtime.handleTwitchWebhook follow_notification ex_options
               registry_settling)
     = Fulfilled noContent /\ status noContent = 204%Z.
Proof.
  assert (calls_settle Runtime.call
            (Runtime.handleTwitchWebhook follow_notification ex_options
               registry_settling)) as Hsettle.
  { intros p h n. vm_compute.
    intros [H|[H|[]]]; injection H as <- <- <-; reflexivity. }
  split; [exact Hsettle|].
  apply (C3_signed_notification Runtime.hmac Runtime.parse
           Runtime.toPropertyKey Runtime.call Runtime.emptyObject
           follow_notification ex_options registry_settling json_follow
           (Some (JStr "channel.follow")) "channel.follow");
    [ vm_compute; reflexivity | vm_compute; reflexivity
    | vm_compute; reflexivity | vm_compute; reflexivity
    | vm_compute; reflexivity | vm_compute; reflexivity
    | reflexivity | exact Hsettle ].
Defined.

Lemma C4_witness :
  one_char_changed
    (expectedSignature Runtime.hmac ex_secret tampered_request)
    (str (signature_of tampered_request)) = true
  /\ Runtime.handleTwitchWebhook tampered_request ex_options emptyRegistry
     = Async [] (Fulfilled (errorResult 401 "Invalid signature")).
Proof.
  split; [vm_compute; reflexivity|].
  apply (C4_one_character_changed Runtime.hmac Runtime.parse
           Runtime.toPropertyKey Runtime.call Runtime.emptyObject
           tampered_request ex_options emptyRegistry json_follow);
    [ vm_compute; reflexivity | vm_compute; reflexivity
    | vm_compute; reflexivity ].
Defined.

Lemma C6_witness :
  headers_present not_json_request = true
  /\ Runtime.parse (text not_json_request) = None
  /\ Runtime.handleTwitchWebhook not_json_request ex_options emptyRegistry
     = Async [] (Fulfilled (errorResult 400 "Invalid JSON body"))
  /\ Runtime.handleTwitchWebhook tampered_request ex_options emptyRegistry
     = Async [] (Fulfilled (errorResult 401 "Invalid signature")).
Proof.
  split; [vm_compute; reflexivity|].
  split; [vm_compute; reflexivity|].
  split.
  - apply (C6_json_before_signature Runtime.hmac Runtime.parse
             Runtime.toPropertyKey Runtime.call Runtime.emptyObject
             not_json_request ex_options emptyRegistry);
      vm_compute; reflexivity.
  - apply (C6_json_before_signature Runtime.hmac Runtime.parse
             Runtime.toPropertyKey Runtime.call Runtime.emptyObject
             tampered_request ex_options emptyRegistry)
      with (bodyJson := json_follow);
      [vm_compute; reflexivity | vm_compute; reflexivity |].
    vm_compute. discriminate.
Defined.

Lemma C7_witness :
  missing (messageId_of unsigned_request) = false
  /\ missing (timestamp_of unsigned_request) = false
  /\ missing (signature_of unsigned_request) = true
  /\ Runtime.handleTwitchWebhook unsigned_request ex_options emptyRegistry
     = Async [] (Fulfilled (errorResult 400 msg_missing_signature)).
Proof.
  split; [reflexivity|]. split; [reflexivity|]. split; [reflexivity|].
  apply (C7_header_checks Runtime.hmac Runtime.parse Runtime.toPropertyKey
           Runtime.call Runtime.emptyObject unsigned_request ex_options
           emptyRegistry); reflexivity.
Defined.

Lemma C8_witness :
  Runtime.parse (text challenge_request)
  = Some (JObj [("challenge", JStr "abc123")])
  /\ Runtime.handleTwitchWebhook challenge_request ex_options emptyRegistry
     = Async [] (Fulfilled
                   {| status := 200;
                      headers := Some [("content-type", "text/plain")];
                      body := Some (JStr "abc123") |})
  /\ Runtime.parse (text no_challenge_request) = Some (JObj [])
  /\ Runtime.handleTwitchWebhook no_challenge_request ex_options
       emptyRegistry
     = Async [] (Fulfilled
                   (errorResult 400
                      "Missing challenge in verification request")).
Proof.
  split; [vm_compute; reflexivity|].
  split.
  - apply (C8_challenge_echo Runtime.hmac Runtime.parse Runtime.toPropertyKey
             Runtime.call Runtime.emptyObject challenge_request ex_options
             emptyRegistry (JObj [("challenge", JStr "abc123")]));
      [ vm_compute; reflexivity | vm_compute; reflexivity
      | vm_compute; reflexivity | vm_compute; reflexivity
      | reflexivity | discriminate ].
  - split; [vm_compute; reflexivity|].
    apply (C8_challenge_echo Runtime.hmac Runtime.parse Runtime.toPropertyKey
             Runtime.call Runtime.emptyObject no_challenge_request
             ex_options emptyRegistry (JObj []));
      [ vm_compute; reflexivity | vm_compute; reflexivity
      | vm_compute; reflexivity | vm_compute; reflexivity
      | reflexivity ].
Defined.

Lemma C9_witness :
  registered registry_settling "channel.follow" 1
  /\ registered registry_settling "*" 5
  /\ In (Invoke Specific 1 json_follow)
        (trace (Runtime.handleTwitchWebhook follow_notification ex_options
                  registry_settling))
  /\ In (Invoke Wildcard 5 json_follow)
        (trace (Runtime.handleTwitchWebhook follow_notification ex_options
                  registry_settling)).
Proof.
  assert (registered registry_settling "channel.follow" 1) as H1
    by (exists [1]; split; [vm_compute; reflexivity | left; reflexivity]).
  assert (registered registry_settling "*" 5) as H5
    by (exists [5]; split; [vm_compute; reflexivity | left; reflexivity]).
  assert (result (Runtime.handleTwitchWebhook follow_notification ex_options
                    registry_settling) = Fulfilled noContent) as Hresult
    by (vm_compute; reflexivity).
  split; [exact H1|]. split; [exact H5|].
  destruct (C9_registry_dispatch Runtime.hmac Runtime.parse
              Runtime.toPropertyKey Runtime.call Runtime.emptyObject
              follow_notification ex_options registry_settling json_follow
              "channel.follow")
    as (_ & _ & Hcomplete);
    [ vm_compute; reflexivity | vm_compute; reflexivity
    | vm_compute; reflexivity | vm_compute; reflexivity
    | vm_compute; reflexivity | ].
  split.
  - exact (proj1 (Hcomplete noContent Hresult 1) H1).
  - exact (proj2 (Hcomplete noContent Hresult 5) H5).
Defined.

Lemma C10_witness :
  Runtime.parse (text empty_challenge_request)
  = Some (JObj [("challenge", JStr "")])
  /\ Runtime.handleTwitchWebhook empty_challenge_request ex_options
       emptyRegistry
     = Async [] (Fulfilled
                   (errorResult 400
                      "Missing challenge in verification request")).
Proof.
  split; [vm_compute; reflexivity|].
  apply (C10_falsy_challenge Runtime.hmac Runtime.parse Runtime.toPropertyKey
           Runtime.call Runtime.emptyObject empty_challenge_request
           ex_options emptyRegistry [("challenge", JStr "")] (JStr ""));
    [ vm_compute; reflexivity | vm_compute; reflexivity
    | vm_compute; reflexivity | vm_compute; reflexivity
    | reflexivity | left; reflexivity ].
Defined.

(** * Further properties *)

(** ** The registry under [on] and the returned functions *)

Lemma on_present (eventType : string) (h : handler) (st : Registry)
    (a : nat) :
  eventHandlers st !! eventType = Some a ->
  on eventType h st
  = ({| u_handlers := a; u_handler := h; u_eventType := eventType |},
     {| sets := <[a := Set_add h (setAt st a)]> (sets st);
        eventHandlers := eventHandlers st;
        next := next st |}).
Proof. intros H. unfold on. by rewrite H; simpl; rewrite H. Qed.

Lemma on_absent (eventType : string) (h : handler) (st : Registry) :
  eventHandlers st !! eventType = None ->
  on eventType h st
  = ({| u_handlers := next st; u_handler := h; u_eventType := eventType |},
     {| sets := <[next st := [h]]> (sets st);
        eventHandlers := <[eventType := next st]> (eventHandlers st);
        next := S (next st) |}).
Proof.
  intros H. unfold on. rewrite H. simpl. rewrite lookup_insert_eq.
  unfold setAt. simpl. rewrite lookup_insert_eq. simpl.
  by rewrite insert_insert_eq.
Qed.

Lemma Set_add_In (h h' : handler) (s : list handler) :
  In h' (Set_add h s) <-> In h' s \/ h' = h.
Proof.
  unfold Set_add. destruct (existsb (Nat.eqb h) s) eqn:E.
  - split; [by left|]. intros [H| ->]; [done|].
    apply existsb_exists in E as (x & Hx & ->%Nat.eqb_eq). done.
  - rewrite in_app_iff. simpl. intuition.
Qed.

Lemma Set_add_NoDup (h : handler) (s : list handler) :
  NoDup s -> NoDup (Set_add h s).
Proof.
  intros Hs. unfold Set_add. destruct (existsb (Nat.eqb h) s) eqn:E; [done|].
  apply NoDup_app. split; [done|]. split; [|apply NoDup_singleton].
  intros x Hx ->%list_elem_of_singleton.
  apply not_true_iff_false in E. apply E, existsb_exists.
  exists h. split; [by apply list_elem_of_In | apply Nat.eqb_refl].
Qed.

Lemma Set_add_nonempty (h : handler) (s : list handler) : Set_add h s <> [].
Proof.
  intros H. assert (In h (Set_add h s)) as Hin by (apply Set_add_In; by right).
  by rewrite H in Hin.
Qed.

Lemma Set_delete_In (h h' : handler) (s : list handler) :
  In h' (Set_delete h s) <-> In h' s /\ h' <> h.
Proof.
  unfold Set_delete. rewrite filter_In, negb_true_iff, Nat.eqb_neq.
  intuition.
Qed.

Lemma Set_delete_NoDup (h : handler) (s : list handler) :
  NoDup s -> NoDup (Set_delete h s).
Proof. rewrite !NoDup_ListNoDup. apply List.NoDup_filter. Qed.

Lemma unsubscribe_eventHandlers (u : Unsubscribe) (st : Registry) :
  eventHandlers (unsubscribe u st)
  = if (length (Set_delete (u_handler u) (setAt st (u_handlers u))) =? 0)%nat
    then delete (u_eventType u) (eventHandlers st)
    else eventHandlers st.
Proof. unfold unsubscribe. by destruct (_ =? _)%nat. Qed.

Lemma length_zero_nil {A : Type} (l : list A) :
  (length l =? 0)%nat = true <-> l = [].
Proof. rewrite Nat.eqb_eq. by destruct l. Qed.

Lemma consistent_empty : consistent emptyRegistry [].
Proof. by split. Qed.

Lemma consistent_on (eventType : string) (h : handler) (st : Registry)
    (us : list Unsubscribe) :
  consistent st us ->
  consistent (on eventType h st).2 ((on eventType h st).1 :: us).
Proof.
  intros [Hheld Hstored Hapart Hclosures].
  destruct (eventHandlers st !! eventType) as [a|] eqn:Hkey.
  - rewrite (on_present _ _ _ _ Hkey). simpl.
    destruct (Hheld _ _ Hkey) as (s & Hs & Hne).
    split; simpl.
    + intros k a' Hk. destruct (decide (a' = a)) as [->|Hneq].
      * rewrite lookup_insert_eq. eexists. split; [done|].
        apply Set_add_nonempty.
      * rewrite lookup_insert_ne by done. eauto.
    + intros a' s'. destruct (decide (a' = a)) as [->|Hneq].
      * rewrite lookup_insert_eq. intros [= <-].
        destruct (Hstored _ _ Hs). split; [done|].
        apply Set_add_NoDup. unfold setAt. by rewrite Hs.
      * rewrite lookup_insert_ne by done. eauto.
    + eauto.
    + intros u [<-|Hu]; simpl.
      * rewrite lookup_insert_eq. split; [by eexists|].
        intros k Hk. by apply (Hapart _ _ a).
      * destruct (Hclosures u Hu) as [Hsome Hk]. split; [|done].
        destruct (decide (u_handlers u = a)) as [->|Hneq];
          [rewrite lookup_insert_eq | rewrite lookup_insert_ne]; done.
  - rewrite (on_absent _ _ _ Hkey). simpl.
    assert (sets st !! next st = None) as Hfresh.
    { destruct (sets st !! next st) as [s|] eqn:E; [|done].
      destruct (Hstored _ _ E). lia. }
    assert (forall k, eventHandlers st !! k <> Some (next st)) as Hunheld.
    { intros k Hk. destruct (Hheld _ _ Hk) as (s & Hs & _). congruence. }
    split; simpl.
    + intros k a. destruct (decide (k = eventType)) as [->|Hneq].
      * rewrite lookup_insert_eq. intros [= <-]. rewrite lookup_insert_eq.
        by eexists.
      * rewrite lookup_insert_ne by done. intros Hk.
        destruct (Hheld _ _ Hk) as (s & Hs & Hne).
        rewrite lookup_insert_ne by congruence. eauto.
    + intros a s. destruct (decide (a = next st)) as [->|Hneq].
      * rewrite lookup_insert_eq. intros [= <-]. split; [lia|].
        apply NoDup_singleton.
      * rewrite lookup_insert_ne by done. intros Hs.
        destruct (Hstored _ _ Hs). split; [lia|done].
    + intros k k' a.
      destruct (decide (k = eventType)) as [->|Hk],
               (decide (k' = eventType)) as [->|Hk'];
        rewrite ?lookup_insert_eq, ?lookup_insert_ne by done; try done.
      * intros [= <-] Hk. by destruct (Hunheld k').
      * intros Hk' [= <-]. by destruct (Hunheld k).
      * eauto.
    + intros u [<-|Hu]; simpl.
      * rewrite lookup_insert_eq. split; [by eexists|].
        intros k. destruct (decide (k = eventType)) as [->|Hneq]; [done|].
        rewrite lookup_insert_ne by done. intros Hk. by destruct (Hunheld k).
      * destruct (Hclosures u Hu) as [[s Hs] Hk].
        assert (u_handlers u <> next st) as Hneq by congruence.
        split; [rewrite lookup_insert_ne by done; by eexists|].
        intros k. destruct (decide (k = eventType)) as [->|Hneq'].
        -- rewrite lookup_insert_eq. congruence.
        -- rewrite lookup_insert_ne by done. auto.
Qed.

Lemma consistent_unsubscribe (u : Unsubscribe) (st : Registry)
    (us : list Unsubscribe) :
  consistent st us -> In u us -> consistent (unsubscribe u st) us.
Proof.
  intros [Hheld Hstored Hapart Hclosures] Hu.
  destruct (Hclosures u Hu) as [[s Hs] Hkey].
  assert (setAt st (u_handlers u) = s) as Hat by (unfold setAt; by rewrite Hs).
  split.
  - intros k a. rewrite unsubscribe_eventHandlers, unsubscribe_sets, Hat.
    destruct (length _ =? 0)%nat eqn:Hsize.
    + apply length_zero_nil in Hsize.
      destruct (decide (k = u_eventType u)) as [->|Hneq];
        [by rewrite lookup_delete_eq|].
      rewrite lookup_delete_ne by done. intros Hk.
      rewrite lookup_insert_ne; [eauto|].
      intros <-. by apply Hneq, Hkey.
    + intros Hk. destruct (decide (a = u_handlers u)) as [->|Hneq].
      * rewrite lookup_insert_eq. eexists. split; [done|].
        intros Hnil. apply length_zero_nil in Hnil. congruence.
      * rewrite lookup_insert_ne by done. eauto.
  - intros a s'. rewrite unsubscribe_sets, unsubscribe_next, Hat.
    destruct (decide (a = u_handlers u)) as [->|Hneq].
    + rewrite lookup_insert_eq. intros [= <-].
      destruct (Hstored _ _ Hs). split; [done|]. by apply Set_delete_NoDup.
    + rewrite lookup_insert_ne by done. eauto.
  - intros k k' a. rewrite unsubscribe_eventHandlers.
    destruct (length _ =? 0)%nat; [|eauto].
    intros Hk%lookup_delete_Some Hk'%lookup_delete_Some.
    destruct Hk, Hk'. eauto.
  - intros u' Hu'. destruct (Hclosures u' Hu') as [Hsome' Hkey'].
    rewrite unsubscribe_sets. split.
    + destruct (decide (u_handlers u' = u_handlers u)) as [->|Hneq];
        [rewrite lookup_insert_eq | rewrite lookup_insert_ne]; done.
    + intros k. rewrite unsubscribe_eventHandlers.
      destruct (length _ =? 0)%nat; [|auto].
      intros Hk%lookup_delete_Some. destruct Hk. auto.
Qed.

Lemma reachable_consistent (st : Registry) (us : list Unsubscribe) :
  reachable st us -> consistent st us.
Proof.
  induction 1; auto using consistent_empty, consistent_on,
    consistent_unsubscribe.
Qed.

Lemma eventHandlers_get_on (eventType k : string) (h : handler)
    (st : Registry) (us : list Unsubscribe) :
  consistent st us ->
  eventHandlers_get (on eventType h st).2 k
  = if decide (k = eventType)
    then Some (Set_add h (handlers_of (eventHandlers_get st eventType)))
    else eventHandlers_get st k.
Proof.
  intros [Hheld Hstored Hapart Hclosures]. unfold eventHandlers_get, setAt.
  destruct (eventHandlers st !! eventType) as [a|] eqn:Hkey.
  - rewrite (on_present _ _ _ _ Hkey). simpl.
    destruct (decide (k = eventType)) as [->|Hneq].
    + by rewrite Hkey, lookup_insert_eq.
    + destruct (eventHandlers st !! k) as [a'|] eqn:Hk; [|done].
      rewrite lookup_insert_ne; [done|]. intros <-.
      by apply Hneq, (Hapart _ _ a).
  - rewrite (on_absent _ _ _ Hkey). simpl.
    destruct (decide (k = eventType)) as [->|Hneq].
    + by rewrite !lookup_insert_eq.
    + rewrite lookup_insert_ne by done.
      destruct (eventHandlers st !! k) as [a'|] eqn:Hk; [|done].
      rewrite lookup_insert_ne; [done|]. intros <-.
      destruct (Hheld _ _ Hk) as (s & Hs & _).
      destruct (Hstored _ _ Hs). lia.
Qed.

Lemma eventHandlers_get_unsubscribe_other (u : Unsubscribe) (k : string)
    (st : Registry) (us : list Unsubscribe) :
  consistent st us -> In u us -> k <> u_eventType u ->
  eventHandlers_get (unsubscribe u st) k = eventHandlers_get st k.
Proof.
  intros [Hheld Hstored Hapart Hclosures] Hu Hneq.
  destruct (Hclosures u Hu) as [_ Hkey].
  unfold eventHandlers_get, setAt.
  rewrite unsubscribe_eventHandlers, unsubscribe_sets.
  assert ((if (length (Set_delete (u_handler u) (setAt st (u_handlers u)))
               =? 0)%nat
           then delete (u_eventType u) (eventHandlers st)
           else eventHandlers st) !! k = eventHandlers st !! k) as ->.
  { destruct (_ =? _)%nat; [by rewrite lookup_delete_ne|done]. }
  destruct (eventHandlers st !! k) as [a|] eqn:Hk; [|done].
  rewrite lookup_insert_ne; [done|]. intros Heq. subst a. by apply Hneq, Hkey.
Qed.

Lemma eventHandlers_get_unsubscribe_held (u : Unsubscribe) (st : Registry) :
  eventHandlers st !! u_eventType u = Some (u_handlers u) ->
  eventHandlers_get (unsubscribe u st) (u_eventType u)
  = match Set_delete (u_handler u) (setAt st (u_handlers u)) with
    | [] => None
    | s => Some s
    end.
Proof.
  intros Hkey. unfold eventHandlers_get at 1.
  rewrite unsubscribe_eventHandlers.
  destruct (Set_delete _ _) as [|x s] eqn:E; simpl.
  - by rewrite lookup_delete_eq.
  - by rewrite Hkey, setAt_unsubscribe, E.
Qed.

Lemma consistent_key_holds (st : Registry) (us : list Unsubscribe)
    (k : string) (s : list handler) :
  consistent st us ->
  eventHandlers_get st k = Some s ->
  s <> [] /\ NoDup s.
Proof.
  intros [Hheld Hstored _ _]. unfold eventHandlers_get.
  destruct (eventHandlers st !! k) as [a|] eqn:Hk; [|done].
  destruct (Hheld _ _ Hk) as (s' & Hs' & Hne). unfold setAt. rewrite Hs'.
  intros [= <-]. split; [done|]. by destruct (Hstored _ _ Hs').
Qed.

(** X1: in a registry produced by [on] and the functions it returned, a key
    always holds at least one handler and no handler twice. *)
Theorem X1_registry_keys_hold_handlers (st : Registry)
    (us : list Unsubscribe) (k : string) (s : list handler) :
  reachable st us ->
  eventHandlers_get st k = Some s ->
  s <> [] /\ NoDup s.
Proof.
  intros Hr. apply (consistent_key_holds st us).
  by apply reachable_consistent.
Qed.

(** X2: [on(eventType, h)] adds the registration of [h] under [eventType]
    and changes no other registration. *)
Theorem X2_on_adds_one_registration (st : Registry) (us : list Unsubscribe)
    (eventType k : string) (h h' : handler) :
  reachable st us ->
  registered (on eventType h st).2 k h'
  <-> registered st k h' \/ (k = eventType /\ h' = h).
Proof.
  intros Hc%reachable_consistent. unfold registered.
  rewrite (eventHandlers_get_on _ _ _ _ _ Hc).
  destruct (decide (k = eventType)) as [->|Hneq].
  - split.
    + intros (s & [= <-] & [Hin| ->]%Set_add_In); [|by right].
      left. destruct (eventHandlers_get st eventType) as [s|]; [|done].
      by exists s.
    + intros H. eexists. split; [done|]. apply Set_add_In.
      destruct H as [(s & -> & Hin)|[_ ->]]; [by left|by right].
  - split; [by left|]. by intros [H|[? _]].
Qed.

(** X3: the function returned by [on], called while its key still holds the
    [Set] it added to, removes the registration of its handler under its
    key and changes no other registration. *)
Theorem X3_unsubscribe_removes_one_registration (st : Registry)
    (us : list Unsubscribe) (u : Unsubscribe) (k : string) (h : handler) :
  reachable st us ->
  In u us ->
  eventHandlers st !! u_eventType u = Some (u_handlers u) ->
  registered (unsubscribe u st) k h
  <-> registered st k h /\ ~ (k = u_eventType u /\ h = u_handler u).
Proof.
  intros Hc%reachable_consistent Hu Hheld. unfold registered.
  destruct (decide (k = u_eventType u)) as [->|Hneq].
  - rewrite (eventHandlers_get_unsubscribe_held _ _ Hheld).
    unfold eventHandlers_get. rewrite Hheld.
    split.
    + intros (s & Hs & Hin).
      assert (In h (Set_delete (u_handler u) (setAt st (u_handlers u))))
        as [Hin' Hne]%Set_delete_In.
      { destruct (Set_delete _ _); [done|]. by injection Hs as <-. }
      split; [by eexists|]. by intros [_ ->].
    + intros [(s & [= <-] & Hin) Hne].
      assert (In h (Set_delete (u_handler u) (setAt st (u_handlers u))))
        as Hin'.
      { apply Set_delete_In. split; [done|]. intros ->. by apply Hne. }
      destruct (Set_delete _ _) as [|x s'] eqn:E; [done|]. by eexists.
  - rewrite (eventHandlers_get_unsubscribe_other _ _ _ _ Hc Hu Hneq).
    split; [|by intros [? _]]. intros H. split; [done|]. by intros [? _].
Qed.

(** X4: a function returned by [on] touches the registrations of its own
    key only, and never adds a registration. *)
Theorem X4_unsubscribe_own_key_only (st : Registry) (us : list Unsubscribe)
    (u : Unsubscribe) :
  reachable st us ->
  In u us ->
  (forall k, k <> u_eventType u ->
             eventHandlers_get (unsubscribe u st) k = eventHandlers_get st k)
  /\ (forall k h, registered (unsubscribe u st) k h -> registered st k h).
Proof.
  intros Hc%reachable_consistent Hu.
  split; [intros k; by apply (eventHandlers_get_unsubscribe_other _ _ _ us)|].
  intros k h. destruct (decide (k = u_eventType u)) as [->|Hneq];
    [|unfold registered;
      by rewrite (eventHandlers_get_unsubscribe_other _ _ _ us)].
  unfold registered, eventHandlers_get.
  rewrite unsubscribe_eventHandlers.
  intros (s & Hs & Hin). revert Hs.
  destruct (length _ =? 0)%nat; [by rewrite lookup_delete_eq|].
  destruct (eventHandlers st !! u_eventType u) as [a|] eqn:Hk; [|done].
  intros [= <-]. eexists. split; [done|]. revert Hin.
  destruct (decide (a = u_handlers u)) as [->|Hne].
  - rewrite setAt_unsubscribe. by intros [Hin _]%Set_delete_In.
  - unfold setAt. by rewrite unsubscribe_sets, lookup_insert_ne.
Qed.

(** X5: registering a handler that is not yet registered under the key and
    calling the returned function right away leaves every key with the
    handlers it had, in the order it had them. *)
Theorem X5_on_then_unsubscribe_restores (st : Registry)
    (us : list Unsubscribe) (eventType k : string) (h : handler) :
  reachable st us ->
  ~ registered st eventType h ->
  eventHandlers_get (unsubscribe (on eventType h st).1 (on eventType h st).2) k
  = eventHandlers_get st k.
Proof.
  intros Hr Hnew.
  pose proof (reachable_consistent _ _ Hr) as Hc.
  pose proof (reachable_consistent _ _ (reachable_on eventType h st us Hr))
    as Hc'.
  assert (u_eventType (on eventType h st).1 = eventType) as Hk
    by (unfold on; by destruct (eventHandlers st !! eventType)).
  destruct (decide (k = eventType)) as [->|Hneq].
  - rewrite unsubscribe_after_on.
    destruct (eventHandlers_get st eventType) as [s|] eqn:Hs; [|done].
    destruct (consistent_key_holds _ _ _ _ Hc Hs) as [Hne _].
    assert (Set_delete h s = s) as ->.
    { unfold Set_delete. apply forallb_filter_id, forallb_forall.
      intros x Hx. apply negb_true_iff, Nat.eqb_neq. intros <-.
      apply Hnew. by exists s. }
    by destruct s.
  - rewrite (eventHandlers_get_unsubscribe_other _ _ _ _ Hc');
      [|by left|by rewrite Hk].
    rewrite (eventHandlers_get_on _ _ _ _ _ Hc).
    by destruct (decide (k = eventType)).
Qed.

(** X6: called any number of times in a row, the returned function does
    what one call does. *)
Theorem X6_unsubscribe_repeated (u : Unsubscribe) (st : Registry) (n : nat) :
  Nat.iter (S n) (unsubscribe u) st = unsubscribe u st.
Proof.
  induction n as [|n IH]; [done|].
  change (Nat.iter (S (S n)) (unsubscribe u) st)
    with (unsubscribe u (Nat.iter (S n) (unsubscribe u) st)).
  by rewrite IH, unsubscribe_twice.
Qed.

(** ** The comparison of signatures *)



(** ** Groups of handler calls *)

Lemma verifyMessage_decides (a b : string) :
  verifyMessage a b = bool_decide (a = b).
Proof.
  destruct (decide (a = b)) as [->|Hneq].
  - by rewrite verifyMessage_refl, bool_decide_eq_true_2.
  - rewrite bool_decide_eq_false_2 by done. by apply verifyMessage_false_iff.
Qed.

Lemma str_Some (h : option string) (s : string) :
  s <> "" -> str h = s -> h = Some s.
Proof. destruct h; simpl; congruence. Qed.

Lemma existsb_of_map {A B : Type} (f : B -> bool) (g : A -> B)
    (l : list A) :
  existsb f (map g l) = existsb (fun x => f (g x)) l.
Proof. induction l as [|x l IH]; simpl; congruence. Qed.

Section GroupCalls.
Variable call : handler -> json -> behaviour.

Lemma array_map_no_throw (p : phase) (hs : list handler) (n : json) :
  (forall h, In h hs -> call h n <> ThrowsSync) ->
  array_map call p hs n
  = Async (map (fun h => Invoke p h n) hs)
      (Fulfilled (map (fun h => call h n) hs)).
Proof.
  induction hs as [|h hs IH]; [done|]. intros H.
  rewrite array_map_cons, IH by (intros; apply H; by right).
  assert (call h n <> ThrowsSync) as Hh by (apply H; by left).
  simpl. destruct (call h n); simpl; congruence.
Qed.

Lemma array_map_throw (p : phase) (pre post : list handler) (h : handler)
    (n : json) :
  (forall h', In h' pre -> call h' n <> ThrowsSync) ->
  call h n = ThrowsSync ->
  array_map call p (pre ++ h :: post) n
  = Async (map (fun h => Invoke p h n) (pre ++ [h]))
      (Rejected HandlerFailure).
Proof.
  intros Hpre Hh. induction pre as [|x pre IH]; simpl app.
  - by rewrite array_map_cons, Hh.
  - rewrite array_map_cons, IH by (intros; apply Hpre; by right).
    assert (call x n <> ThrowsSync) as Hx by (apply Hpre; by left).
    simpl. destruct (call x n); simpl; congruence.
Qed.



(** X9: when no handler of a group throws, the handlers are all called, in
    the order of the [Set], also after one of them has returned a promise
    that rejects; the wait then rejects when a promise rejects, never ends
    when none rejects and one never settles, and is over otherwise. *)
Theorem X9_group_without_throw (p : phase) (hs : list handler) (n : json) :
  (forall h, In h hs -> call h n <> ThrowsSync) ->
  trace (await_all call p hs n) = map (fun h => Invoke p h n) hs
  /\ result (await_all call p hs n)
     = if existsb (fun h => isRejects (call h n)) hs
       then Rejected HandlerFailure
       else if existsb (fun h => isNever (call h n)) hs then Pending
            else Fulfilled tt.
Proof.
  intros Hno. rewrite await_all_trace. unfold await_all.
  rewrite (array_map_no_throw _ _ _ Hno). split; [done|].
  unfold mbind, async_bind, Promise_all. simpl.
  rewrite !existsb_of_map. by repeat case_match.
Qed.

(** X10: the first handler of a group that throws ends the calls: the
    handlers before it and itself have been called, those after it are
    not, and the dispatcher rejects. *)
Theorem X10_group_throw (p : phase) (pre post : list handler) (h : handler)
    (n : json) :
  (forall h', In h' pre -> call h' n <> ThrowsSync) ->
  call h n = ThrowsSync ->
  await_all call p (pre ++ h :: post) n
  = Async (map (fun h => Invoke p h n) (pre ++ [h]))
      (Rejected HandlerFailure).
Proof.
  intros Hpre Hh. unfold await_all.
  by rewrite (array_map_throw _ _ _ _ _ Hpre Hh).
Qed.

Lemma invocations_app (p : phase) (h : handler) (t t' : list event) :
  invocations p h (t ++ t') = invocations p h t + invocations p h t'.
Proof. unfold invocations. by rewrite List.filter_app, length_app. Qed.

Lemma invocations_other_phase (p q : phase) (h : handler)
    (hs : list handler) (n : json) :
  phase_eqb p q = false ->
  invocations p h (map (fun h' => Invoke q h' n) hs) = 0.
Proof.
  intros Hpq. unfold invocations.
  induction hs as [|x hs IH]; [done|]. simpl. by rewrite Hpq.
Qed.

Lemma invocations_same_phase (p : phase) (h : handler) (hs : list handler)
    (n : json) :
  NoDup hs -> In h hs ->
  invocations p h (map (fun h' => Invoke p h' n) hs) = 1.
Proof.
  assert (phase_eqb p p = true) as Hpp by by destruct p.
  unfold invocations. induction 1 as [|x hs Hx Hnd IH]; [done|].
  simpl. rewrite Hpp. simpl.
  destruct (Nat.eqb_spec h x) as [->|Hneq].
  - intros _. simpl. f_equal.
    clear IH. induction hs as [|y hs IH]; [done|]. simpl. rewrite Hpp. simpl.
    destruct (Nat.eqb_spec x y) as [->|Hxy].
    + destruct Hx. by left.
    + apply IH; [|by inversion Hnd]. intros Hin. apply Hx. by right.
  - intros [->|Hin]; [done|]. by apply IH.
Qed.

End GroupCalls.

(** ** The two copies of the dispatcher *)

Lemma verification_case_trace (bodyJson : json) :
  trace (verification_case bodyJson) = [].
Proof.
  unfold verification_case. rewrite bind_trace, eval_trace. simpl.
  destruct (result _) as [challenge| |]; [|done|done].
  by destruct (negb (truthy challenge)).
Qed.

Section MoreDispatcherProperties.

Variable createHmac_sha256_hex : string -> string -> string.
Variable JSON_parse : string -> option json.
Variable ToPropertyKey : value -> completion string.
Variable call : handler -> json -> behaviour.
Variable emptyObject : TwitchWebhookHandlers.

#[local] Abbreviation handle :=
  (handleTwitchWebhook createHmac_sha256_hex JSON_parse ToPropertyKey call
     emptyObject).
#[local] Abbreviation handle000 :=
  (Part000.handleTwitchWebhook createHmac_sha256_hex JSON_parse
     ToPropertyKey call emptyObject).
#[local] Abbreviation expected := (expectedSignature createHmac_sha256_hex).
#[local] Abbreviation handlersOf options :=
  (match handlers options with
   | Some handlers => handlers
   | None => emptyObject
   end).
#[local] Abbreviation notification_of options bodyJson st :=
  (notification_case ToPropertyKey call (handlersOf options) bodyJson st).

(** Before the body is read: the answers of the two copies are the same,
    one of the three messages about a missing header. *)
Lemma handle_early (request : Request) (options : TwitchWebhookOptions)
    (st : Registry) :
  headers_present request = false ->
  handle000 request options st = handle request options st
  /\ exists msg,
      handle request options st = Async [] (Fulfilled (errorResult 400 msg)).
Proof.
  unfold headers_present, handleTwitchWebhook, Part000.handleTwitchWebhook,
    messageId_of, timestamp_of, signature_of, messageType_of.
  destruct (missing (headers_get request "twitch-eventsub-message-id"));
    [intros _; split; [done|by eexists]|].
  destruct (missing (headers_get request "twitch-eventsub-message-timestamp"));
    [intros _; split; [done|by eexists]|].
  destruct (missing (headers_get request "twitch-eventsub-message-signature"));
    [intros _; split; [done|by eexists]|].
  destruct (missing (headers_get request "twitch-eventsub-message-type"));
    [intros _; split; [done|by eexists]|].
  done.
Qed.

Lemma handle000_checked (request : Request) (options : TwitchWebhookOptions)
    (st : Registry) :
  headers_present request = true ->
  handle000 request options st =
    match JSON_parse (text request) with
    | None => Async [] (Fulfilled (errorResult 400 "Invalid JSON body"))
    | Some bodyJson =>
        verified ← eval (Part000.verifyMessage
                           (expected (secret options) request)
                           (str (signature_of request)));
        if negb verified
        then Async [] (Fulfilled (errorResult 401 "Invalid signature"))
        else
          let messageType := str (messageType_of request) in
          if String.eqb messageType "notification"
          then notification_of options bodyJson st
          else if String.eqb messageType "webhook_callback_verification"
          then verification_case bodyJson
          else if String.eqb messageType "revocation"
          then Async [ConsoleError bodyJson] (Fulfilled noContent)
          else Async [] (Fulfilled (errorResult 400
                                      ("Invalid message type: "
                                       ++ messageType)))
    end.
Proof.
  unfold headers_present, Part000.handleTwitchWebhook, expectedSignature,
    Part000.getHmac, messageId_of, timestamp_of, signature_of,
    messageType_of.
  intros H.
  repeat (apply andb_prop in H as [H ?]).
  repeat match goal with
         | H : negb ?b = true |- _ => apply negb_true_iff in H; rewrite H
         end.
  reflexivity.
Qed.

Lemma messageType_is (request : Request) (s : string) :
  s <> "" ->
  String.eqb (str (messageType_of request)) s = true ->
  messageType_of request = Some s.
Proof. intros Hs H%String.eqb_eq. by apply str_Some. Qed.

(** X11: whenever a copy of the dispatcher answers, the status is 200, 204,
    400 or 401. *)
Theorem X11_status_codes (request : Request) (options : TwitchWebhookOptions)
    (st : Registry) (r : TwitchWebhookResult) :
  result (handle request options st) = Fulfilled r
  \/ result (handle000 request options st) = Fulfilled r ->
  status r = 200%Z \/ status r = 204%Z \/ status r = 400%Z
  \/ status r = 401%Z.
Proof.
  destruct (headers_present request) eqn:Hpresent.
  - rewrite (handle_checked _ _ _ _ _ _ _ _ Hpresent),
      (handle000_checked _ _ _ Hpresent).
    destruct (JSON_parse (text request)) as [bodyJson|];
      [|intros [[= <-]|[= <-]]; auto].
    intros [H|H]; revert H.
    + destruct (negb (verifyMessage _ _)); [intros [= <-]; auto|]. simpl.
      destruct (String.eqb _ "notification");
        [|destruct (String.eqb _ "webhook_callback_verification")].
      * intros ->%notification_case_fulfilled. auto.
      * intros [Hs|Hs]%verification_case_status; auto.
      * intros [= <-]. auto.
    + intros (verified & _ & H)%bind_fulfilled. revert H.
      destruct (negb verified); [intros [= <-]; auto|]. simpl.
      destruct (String.eqb _ "notification");
        [|destruct (String.eqb _ "webhook_callback_verification");
          [|destruct (String.eqb _ "revocation")]].
      * intros ->%notification_case_fulfilled. auto.
      * intros [Hs|Hs]%verification_case_status; auto.
      * intros [= <-]. auto.
      * intros [= <-]. auto.
  - destruct (handle_early _ options st Hpresent) as [-> [msg ->]].
    intros [[= <-]|[= <-]]; auto.
Qed.

(** X12: a copy of the dispatcher calls a handler only for a request that
    carries the four headers, a JSON body, the expected signature and the
    type "notification". *)
Theorem X12_handlers_need_signed_notification (request : Request)
    (options : TwitchWebhookOptions) (st : Registry) (p : phase)
    (h : handler) (n : json) :
  In (Invoke p h n) (trace (handle request options st))
  \/ In (Invoke p h n) (trace (handle000 request options st)) ->
  headers_present request = true
  /\ JSON_parse (text request) = Some n
  /\ signature_of request = Some (expected (secret options) request)
  /\ messageType_of request = Some "notification".
Proof.
  destruct (headers_present request) eqn:Hpresent.
  - assert (missing (signature_of request) = false) as Hsig.
    { unfold headers_present in Hpresent.
      repeat (apply andb_prop in Hpresent as [Hpresent ?]).
      by apply negb_true_iff. }
    rewrite (handle_checked _ _ _ _ _ _ _ _ Hpresent),
      (handle000_checked _ _ _ Hpresent).
    destruct (JSON_parse (text request)) as [bodyJson|];
      [|by intros [[]|[]]].
    assert (forall verified,
               verified = true ->
               verifyMessage (expected (secret options) request)
                 (str (signature_of request)) = verified ->
               forall m,
                 In (Invoke p h n) (trace m) ->
                 (String.eqb (str (messageType_of request)) "notification"
                  = true -> m = notification_of options bodyJson st) ->
                 String.eqb (str (messageType_of request)) "notification"
                 = true ->
                 true = true /\ Some bodyJson = Some n
                 /\ signature_of request
                    = Some (expected (secret options) request)
                 /\ messageType_of request = Some "notification")
      as Hcase.
    { intros verified -> Hverify m Hin Hm Htype. rewrite (Hm Htype) in Hin.
      apply notification_case_invokes in Hin as [-> _].
      apply verifyMessage_true_iff in Hverify.
      repeat split; [|by apply messageType_is].
      destruct (signature_of request); [|done]. simpl in Hverify. congruence. }
    intros [H|H]; revert H.
    + destruct (verifyMessage _ _) eqn:Hverify; [|by intros []]. simpl.
      destruct (String.eqb _ "notification") eqn:Htype.
      * intros Hin. by eapply Hcase.
      * destruct (String.eqb _ "webhook_callback_verification");
          [by rewrite verification_case_trace | by intros []].
    + rewrite bind_trace, eval_trace. simpl.
      destruct (result (eval _)) as [verified| |] eqn:Hverified; [|done|done].
      apply eval_fulfilled in Hverified.
      destruct verified; [|by intros []]. simpl.
      assert (verifyMessage (expected (secret options) request)
                (str (signature_of request)) = true) as Hverify.
      { unfold verifyMessage. unfold Part000.verifyMessage in Hverified.
        by rewrite Hverified. }
      destruct (String.eqb _ "notification") eqn:Htype.
      * intros Hin. by eapply Hcase.
      * destruct (String.eqb _ "webhook_callback_verification");
          [by rewrite verification_case_trace|].
        destruct (String.eqb _ "revocation"); [by intros [|[]] | by intros []].
  - destruct (handle_early _ options st Hpresent) as [-> [msg ->]].
    by intros [[]|[]].
Qed.

(** X13: a validly signed request whose type is none of "notification",
    "webhook_callback_verification" (and, for the copy in [part_000],
    "revocation") is answered 400 "Invalid message type: " followed by the
    type, and no handler is called. *)
Theorem X13_unknown_message_type (request : Request)
    (options : TwitchWebhookOptions) (st : Registry) (bodyJson : json)
    (messageType : string) :
  headers_present request = true ->
  signature_of request = Some (expected (secret options) request) ->
  JSON_parse (text request) = Some bodyJson ->
  messageType_of request = Some messageType ->
  messageType <> "notification" ->
  messageType <> "webhook_callback_verification" ->
  handle request options st
  = Async [] (Fulfilled (errorResult 400
                           ("Invalid message type: " ++ messageType)))
  /\ (messageType <> "revocation" ->
      handle000 request options st
      = Async [] (Fulfilled (errorResult 400
                               ("Invalid message type: " ++ messageType)))).
Proof.
  intros Hpresent Hsig Hparse Htype Hn Hv.
  apply String.eqb_neq in Hn, Hv.
  split.
  - rewrite (handle_verified _ _ _ _ _ _ _ _ _ Hpresent Hsig Hparse), Htype.
    cbn [str]. by rewrite Hn, Hv.
  - intros Hr%String.eqb_neq.
    rewrite (handle000_checked _ _ _ Hpresent), Hparse, Hsig, Htype.
    cbn [str]. rewrite verifyMessage_part000_same_length by done.
    rewrite bool_decide_eq_true_2 by done. unfold eval.
    rewrite bind_unit. cbn [negb]. by rewrite Hn, Hv, Hr.
Qed.

Lemma direct_step_trace (handlers : TwitchWebhookHandlers) (key : string)
    (bodyJson : json) (u u' : unit) :
  result (if hasProperty handlers key
          then match getProperty handlers key with
               | Some handler => await_call call Direct handler bodyJson
               | None => mret tt
               end
          else mret tt) = Fulfilled u ->
  result (if negb (hasProperty handlers key)
          then match getProperty handlers "onUnknownEvent" with
               | Some onUnknownEvent =>
                   await_call call UnknownEvent onUnknownEvent bodyJson
               | None => mret tt
               end
          else mret tt) = Fulfilled u' ->
  (trace (if hasProperty handlers key
          then match getProperty handlers key with
               | Some handler => await_call call Direct handler bodyJson
               | None => mret tt
               end
          else mret tt)
   ++ trace (if negb (hasProperty handlers key)
             then match getProperty handlers "onUnknownEvent" with
                  | Some onUnknownEvent =>
                      await_call call UnknownEvent onUnknownEvent bodyJson
                  | None => mret tt
                  end
             else mret tt))%list
  = direct_calls handlers key bodyJson.
Proof.
  unfold direct_calls, await_call.
  destruct (hasProperty handlers key); simpl.
  - destruct (getProperty handlers key); [|done].
    intros H%await_all_fulfilled _. by rewrite H.
  - destruct (getProperty handlers "onUnknownEvent"); [|done].
    intros _ H%await_all_fulfilled. by rewrite H.
Qed.

Lemma notification_case_trace (handlers : TwitchWebhookHandlers)
    (bodyJson : json) (st : Registry) (eventType : value) (key : string)
    (r : TwitchWebhookResult) :
  eventType_of bodyJson = Normal eventType ->
  propertyKey ToPropertyKey eventType = Normal key ->
  result (notification_case ToPropertyKey call handlers bodyJson st)
  = Fulfilled r ->
  trace (notification_case ToPropertyKey call handlers bodyJson st)
  = (direct_calls handlers key bodyJson
     ++ map (fun h => Invoke Specific h bodyJson)
          (handlers_of (Map_get st eventType))
     ++ map (fun h => Invoke Wildcard h bodyJson)
          (handlers_of (eventHandlers_get st "*")))%list.
Proof.
  unfold notification_case, eventType_of. intros Hevent Hkey.
  destruct (getProp (Some bodyJson) "subscription") as [subscription|];
    [|discriminate].
  rewrite eval_normal_bind, Hevent, eval_normal_bind, Hkey, eval_normal_bind.
  intros H.
  apply bind_fulfilled_trace in H as ([] & Hdirect & H & ->).
  apply bind_fulfilled_trace in H as ([] & Hunknown & H & ->).
  apply bind_fulfilled_trace in H as ([] & Hspecific & H & ->).
  apply bind_fulfilled_trace in H as ([] & Hwildcard & H & ->).
  rewrite app_assoc, (direct_step_trace _ _ _ _ _ Hdirect Hunknown).
  f_equal. simpl. rewrite app_nil_r. f_equal.
  - destruct (Map_get st eventType); [|done].
    by apply await_all_fulfilled in Hspecific.
  - destruct (eventHandlers_get st "*"); [|done].
    by apply await_all_fulfilled in Hwildcard.
Qed.

(** X14: when the dispatcher answers a notification, the calls it has made
    are, in this order: the handler of [options.handlers] under the event
    type, or [onUnknownEvent] when the type is no property of that object;
    the handlers registered under the type, in the order of registration;
    the handlers registered under "*", in the order of registration. *)
Theorem X14_calls_of_a_notification (request : Request)
    (options : TwitchWebhookOptions) (st : Registry) (bodyJson : json)
    (eventType : value) (key : string) (r : TwitchWebhookResult) :
  headers_present request = true ->
  signature_of request = Some (expected (secret options) request) ->
  messageType_of request = Some "notification" ->
  JSON_parse (text request) = Some bodyJson ->
  eventType_of bodyJson = Normal eventType ->
  propertyKey ToPropertyKey eventType = Normal key ->
  result (handle request options st) = Fulfilled r ->
  trace (handle request options st)
  = (direct_calls (handlersOf options) key bodyJson
     ++ map (fun h => Invoke Specific h bodyJson)
          (handlers_of (Map_get st eventType))
     ++ map (fun h => Invoke Wildcard h bodyJson)
          (handlers_of (eventHandlers_get st "*")))%list.
Proof.
  intros Hpresent Hsig Htype Hparse Hevent Hkey.
  rewrite (handle_notification _ _ _ _ _ _ _ _ _ Hpresent Hsig Htype Hparse).
  by apply notification_case_trace.
Qed.

Lemma invocations_direct_calls (p : phase) (h : handler)
    (handlers : TwitchWebhookHandlers) (key : string) (bodyJson : json) :
  p = Specific \/ p = Wildcard ->
  invocations p h (direct_calls handlers key bodyJson) = 0.
Proof.
  unfold direct_calls, invocations.
  intros [-> | ->]; by repeat case_match.
Qed.

(** X15: after [on(eventType, h)], also when [h] was registered under the
    type before, a notification of that type that the dispatcher answers
    has called [h] exactly once in the group of the type. *)
Theorem X15_registered_handler_called_once (request : Request)
    (options : TwitchWebhookOptions) (st : Registry)
    (us : list Unsubscribe) (bodyJson : json) (eventType : string)
    (h : handler) (r : TwitchWebhookResult) :
  reachable st us ->
  headers_present request = true ->
  signature_of request = Some (expected (secret options) request) ->
  messageType_of request = Some "notification" ->
  JSON_parse (text request) = Some bodyJson ->
  eventType_of bodyJson = Normal (Some (JStr eventType)) ->
  result (handle request options (on eventType h st).2) = Fulfilled r ->
  invocations Specific h (trace (handle request options (on eventType h st).2))
  = 1.
Proof.
  intros Hr Hpresent Hsig Htype Hparse Hevent.
  rewrite (handle_notification _ _ _ _ _ _ _ _ _ Hpresent Hsig Htype Hparse).
  intros Hresult.
  rewrite (notification_case_trace _ _ _ _ eventType _ Hevent eq_refl Hresult).
  rewrite !invocations_app, invocations_direct_calls by by left.
  rewrite (invocations_other_phase Specific Wildcard) by done.
  unfold Map_get.
  pose proof (reachable_consistent _ _ Hr) as Hc.
  pose proof (reachable_on eventType h st us Hr) as Hr'.
  rewrite (eventHandlers_get_on _ _ _ _ _ Hc).
  destruct (decide (eventType = eventType)); [|done]. simpl.
  rewrite invocations_same_phase; [done| |apply Set_add_In; by right].
  apply (consistent_key_holds _ _ eventType _ (reachable_consistent _ _ Hr')).
  rewrite (eventHandlers_get_on _ _ _ _ _ Hc).
  by destruct (decide (eventType = eventType)).
Qed.



(** X17: the two copies of the dispatcher give the same result on every
    request whose signature header has the length of the expected
    signature and whose type is not "revocation". *)
Theorem X17_copies_agree (request : Request) (options : TwitchWebhookOptions)
    (st : Registry) :
  String.length (str (signature_of request))
  = String.length (expected (secret options) request) ->
  messageType_of request <> Some "revocation" ->
  handle000 request options st = handle request options st.
Proof.
  intros Hlength Htype.
  destruct (headers_present request) eqn:Hpresent;
    [|by apply handle_early].
  rewrite (handle_checked _ _ _ _ _ _ _ _ Hpresent),
    (handle000_checked _ _ _ Hpresent).
  destruct (JSON_parse (text request)) as [bodyJson|]; [|done].
  rewrite verifyMessage_part000_same_length by done.
  rewrite verifyMessage_decides. unfold eval. rewrite bind_unit.
  destruct (negb (bool_decide _)); [done|]. cbv zeta.
  assert (String.eqb (str (messageType_of request)) "revocation" = false)
    as ->.
  { apply String.eqb_neq. intros H. apply Htype. by apply str_Some. }
  simpl app. by destruct (if String.eqb _ _ then _ else _).
Qed.

(** X18: the copy in [part_000] does not answer a request whose signature
    header has another length than the expected signature: the comparison
    raises and the promise rejects with the [RangeError], no handler being
    called. *)
Theorem X18_part000_rejects_other_length (request : Request)
    (options : TwitchWebhookOptions) (st : Registry) (bodyJson : json) :
  headers_present request = true ->
  JSON_parse (text request) = Some bodyJson ->
  String.length (str (signature_of request))
  <> String.length (expected (secret options) request) ->
  handle000 request options st = Async [] (Rejected RangeError).
Proof.
  intros Hpresent Hparse Hlength.
  rewrite (handle000_checked _ _ _ Hpresent), Hparse.
  by rewrite verifyMessage_part000_other_length.
Qed.

(** X19: the copy in [part_000] answers a validly signed request of type
    "revocation" with 204, whatever its JSON body holds, after writing the
    parsed body to the console once and without calling a handler. *)
Theorem X19_part000_revocation (request : Request)
    (options : TwitchWebhookOptions) (st : Registry) (bodyJson : json) :
  headers_present request = true ->
  signature_of request = Some (expected (secret options) request) ->
  messageType_of request = Some "revocation" ->
  JSON_parse (text request) = Some bodyJson ->
  handle000 request options st
  = Async [ConsoleError bodyJson] (Fulfilled noContent)
  /\ status noContent = 204%Z
  /\ body noContent = None.
Proof.
  intros Hpresent Hsig Htype Hparse.
  by rewrite (revocation_part000 _ _ _ _ _ _ _ _ _ Hpresent Hsig Htype Hparse).
Qed.

End MoreDispatcherProperties.

(** ** The further theorems at concrete inputs *)

(** The signed channel.follow notification, shared by the evaluations
    below. *)
Lemma follow_notification_present :
  headers_present follow_notification = true.
Proof. vm_compute; reflexivity. Qed.

Lemma follow_notification_signed :
  signature_of follow_notification
  = Some (expectedSignature Runtime.hmac (secret ex_options)
            follow_notification).
Proof. vm_compute; reflexivity. Qed.

Lemma follow_notification_parsed :
  Runtime.parse (text follow_notification) = Some json_follow.
Proof. vm_compute; reflexivity. Qed.

Lemma follow_notification_type :
  messageType_of follow_notification = Some "notification".
Proof. reflexivity. Qed.

Lemma follow_notification_answered :
  result (Runtime.handleTwitchWebhook follow_notification ex_options
            registry_settling)
  = Fulfilled noContent.
Proof. vm_compute; reflexivity. Qed.

Lemma registry_settling_reachable :
  reachable registry_settling
    [(on "*" 5 (on "channel.follow" 1 emptyRegistry).2).1;
     (on "channel.follow" 1 emptyRegistry).1].
Proof.
  exact (reachable_on "*" 5 _ _
           (reachable_on "channel.follow" 1 _ _ reachable_empty)).
Qed.

Lemma X1_witness :
  eventHandlers_get registry_settling "channel.follow" = Some [1]
  /\ [1] <> [] /\ NoDup [1].
Proof.
  assert (eventHandlers_get registry_settling "channel.follow" = Some [1])
    as Hheld by (vm_compute; reflexivity).
  split; [exact Hheld|].
  exact (X1_registry_keys_hold_handlers registry_settling _
           "channel.follow" [1] registry_settling_reachable Hheld).
Defined.

Lemma X2_witness :
  registered (on "channel.follow" 7 registry_settling).2 "channel.follow" 7
  /\ ~ registered (on "channel.follow" 7 registry_settling).2 "*" 7.
Proof.
  split.
  - apply (X2_on_adds_one_registration registry_settling _
             "channel.follow" "channel.follow" 7 7
             registry_settling_reachable).
    right. split; reflexivity.
  - intros [Hbefore | [Hkey _]]%(X2_on_adds_one_registration
                                   registry_settling _ "channel.follow" "*"
                                   7 7 registry_settling_reachable);
      [|discriminate].
    destruct Hbefore as (s & Hs & Hin). vm_compute in Hs.
    injection Hs as <-. destruct Hin as [Hin|[]]. discriminate.
Defined.

Lemma X3_witness :
  eventHandlers registry_settling !! "channel.follow" = Some 0
  /\ registered registry_settling "channel.follow" 1
  /\ ~ registered
         (unsubscribe (on "channel.follow" 1 emptyRegistry).1
            registry_settling)
         "channel.follow" 1.
Proof.
  split; [vm_compute; reflexivity|].
  split; [exists [1]; split; [vm_compute; reflexivity | left; reflexivity]|].
  intros [_ Hkept]%(X3_unsubscribe_removes_one_registration
                      registry_settling _
                      (on "channel.follow" 1 emptyRegistry).1
                      "channel.follow" 1 registry_settling_reachable).
  - apply Hkept. split; reflexivity.
  - right; left; reflexivity.
  - vm_compute; reflexivity.
Defined.

Lemma X4_witness :
  eventHandlers_get
    (unsubscribe (on "channel.follow" 1 emptyRegistry).1 registry_settling)
    "*"
  = eventHandlers_get registry_settling "*".
Proof.
  destruct (X4_unsubscribe_own_key_only registry_settling _
              (on "channel.follow" 1 emptyRegistry).1
              registry_settling_reachable) as [Hother _].
  - right; left; reflexivity.
  - apply Hother. discriminate.
Defined.

Lemma X5_witness :
  ~ registered registry_settling "channel.follow" 7
  /\ eventHandlers_get
       (unsubscribe (on "channel.follow" 7 registry_settling).1
          (on "channel.follow" 7 registry_settling).2)
       "channel.follow"
     = eventHandlers_get registry_settling "channel.follow".
Proof.
  assert (~ registered registry_settling "channel.follow" 7) as Hnew.
  { intros (s & Hs & Hin). vm_compute in Hs. injection Hs as <-.
    destruct Hin as [Hin|[]]. discriminate. }
  split; [exact Hnew|].
  exact (X5_on_then_unsubscribe_restores registry_settling _
           "channel.follow" "channel.follow" 7 registry_settling_reachable
           Hnew).
Defined.

Lemma X9_witness :
  trace (await_all Runtime.call Specific [1; 2; 4; 5] json_follow)
  = [Invoke Specific 1 json_follow; Invoke Specific 2 json_follow;
     Invoke Specific 4 json_follow; Invoke Specific 5 json_follow]
  /\ result (await_all Runtime.call Specific [1; 2; 4; 5] json_follow)
     = Rejected HandlerFailure.
Proof.
  destruct (X9_group_without_throw Runtime.call Specific [1; 2; 4; 5]
              json_follow) as [Htrace Hresult].
  - intros h [<-|[<-|[<-|[<-|[]]]]]; discriminate.
  - split; [exact Htrace | exact Hresult].
Defined.

Lemma X10_witness :
  await_all Runtime.call Wildcard ([1; 2] ++ 3 :: [5]) json_follow
  = Async (map (fun h => Invoke Wildcard h json_follow) ([1; 2] ++ [3]))
      (Rejected HandlerFailure).
Proof.
  apply (X10_group_throw Runtime.call Wildcard [1; 2] [5] 3 json_follow).
  - intros h [<-|[<-|[]]]; discriminate.
  - reflexivity.
Defined.

Lemma X11_witness :
  result (Runtime.handleTwitchWebhook follow_notification ex_options
            registry_settling)
  = Fulfilled noContent
  /\ (status noContent = 200%Z \/ status noContent = 204%Z
      \/ status noContent = 400%Z \/ status noContent = 401%Z).
Proof.
  split; [exact follow_notification_answered|].
  apply (X11_status_codes Runtime.hmac Runtime.parse Runtime.toPropertyKey
           Runtime.call Runtime.emptyObject follow_notification ex_options
           registry_settling noContent).
  left. exact follow_notification_answered.
Defined.

Lemma X12_witness :
  In (Invoke Wildcard 5 json_follow)
     (trace (Runtime.handleTwitchWebhook follow_notification ex_options
               registry_settling))
  /\ headers_present follow_notification = true
  /\ Runtime.parse (text follow_notification) = Some json_follow
  /\ signature_of follow_notification
     = Some (expectedSignature Runtime.hmac (secret ex_options)
               follow_notification)
  /\ messageType_of follow_notification = Some "notification".
Proof.
  assert (In (Invoke Wildcard 5 json_follow)
            (trace (Runtime.handleTwitchWebhook follow_notification
                      ex_options registry_settling))) as Hcalled
    by (vm_compute; right; left; reflexivity).
  split; [exact Hcalled|].
  apply (X12_handlers_need_signed_notification Runtime.hmac Runtime.parse
           Runtime.toPropertyKey Runtime.call Runtime.emptyObject
           follow_notification ex_options registry_settling Wildcard 5
           json_follow).
  left. exact Hcalled.
Defined.

Lemma X13_witness :
  messageType_of unknown_type_request = Some "ping"
  /\ Runtime.handleTwitchWebhook unknown_type_request ex_options
       emptyRegistry
     = Async [] (Fulfilled (errorResult 400
                              ("Invalid message type: " ++ "ping")))
  /\ Runtime.handleTwitchWebhook_part000 unknown_type_request ex_options
       emptyRegistry
     = Async [] (Fulfilled (errorResult 400
                              ("Invalid message type: " ++ "ping"))).
Proof.
  split; [reflexivity|].
  destruct (X13_unknown_message_type Runtime.hmac Runtime.parse
              Runtime.toPropertyKey Runtime.call Runtime.emptyObject
              unknown_type_request ex_options emptyRegistry (JObj []) "ping")
    as [Hcopy Hcopy000];
    [ vm_compute; reflexivity | vm_compute; reflexivity
    | vm_compute; reflexivity | reflexivity | discriminate | discriminate | ].
  split; [exact Hcopy | apply Hcopy000; discriminate].
Defined.

Lemma X14_witness :
  trace (Runtime.handleTwitchWebhook follow_notification ex_options
           registry_settling)
  = [Invoke Specific 1 json_follow; Invoke Wildcard 5 json_follow].
Proof.
  rewrite (X14_calls_of_a_notification Runtime.hmac Runtime.parse
             Runtime.toPropertyKey Runtime.call Runtime.emptyObject
             follow_notification ex_options registry_settling json_follow
             (Some (JStr "channel.follow")) "channel.follow" noContent
             follow_notification_present follow_notification_signed
             follow_notification_type follow_notification_parsed
             eq_refl eq_refl follow_notification_answered).
  vm_compute; reflexivity.
Defined.

Lemma X15_witness :
  result (Runtime.handleTwitchWebhook follow_notification ex_options
            (on "channel.follow" 1 registry_settling).2)
  = Fulfilled noContent
  /\ invocations Specific 1
       (trace (Runtime.handleTwitchWebhook follow_notification ex_options
                 (on "channel.follow" 1 registry_settling).2))
     = 1.
Proof.
  assert (result (Runtime.handleTwitchWebhook follow_notification ex_options
                    (on "channel.follow" 1 registry_settling).2)
          = Fulfilled noContent) as Hanswered
    by (vm_compute; reflexivity).
  split; [exact Hanswered|].
  exact (X15_registered_handler_called_once Runtime.hmac Runtime.parse
           Runtime.toPropertyKey Runtime.call Runtime.emptyObject
           follow_notification ex_options registry_settling _ json_follow
           "channel.follow" 1 noContent registry_settling_reachable
           follow_notification_present follow_notification_signed
           follow_notification_type follow_notification_parsed
           eq_refl Hanswered).
Defined.


Lemma X17_witness :
  Runtime.handleTwitchWebhook_part000 follow_notification ex_options
    registry_settling
  = Runtime.handleTwitchWebhook follow_notification ex_options
      registry_settling.
Proof.
  apply (X17_copies_agree Runtime.hmac Runtime.parse Runtime.toPropertyKey
           Runtime.call Runtime.emptyObject follow_notification ex_options
           registry_settling).
  - vm_compute; reflexivity.
  - discriminate.
Defined.

Lemma X18_witness :
  String.length (str (signature_of short_signature_request)) = 9
  /\ String.length
       (expectedSignature Runtime.hmac (secret ex_options)
          short_signature_request)
     = 71
  /\ Runtime.handleTwitchWebhook_part000 short_signature_request ex_options
       emptyRegistry
     = Async [] (Rejected RangeError).
Proof.
  split; [reflexivity|]. split; [vm_compute; reflexivity|].
  apply (X18_part000_rejects_other_length Runtime.hmac Runtime.parse
           Runtime.toPropertyKey Runtime.call Runtime.emptyObject
           short_signature_request ex_options emptyRegistry json_follow).
  - vm_compute; reflexivity.
  - vm_compute; reflexivity.
  - vm_compute. discriminate.
Defined.

Lemma X19_witness :
  Runtime.handleTwitchWebhook_part000 revocation_request ex_options
    registry_settling
  = Async [ConsoleError (JObj [])] (Fulfilled noContent)
  /\ status noContent = 204%Z
  /\ body noContent = None.
Proof.
  apply (X19_part000_revocation Runtime.hmac Runtime.parse
           Runtime.toPropertyKey Runtime.call Runtime.emptyObject
           revocation_request ex_options registry_settling (JObj []));
    [ vm_compute; reflexivity | vm_compute; reflexivity
    | reflexivity | vm_compute; reflexivity ].
Defined.
